(** * bdd_converter: Robot Framework suites to [.feature] text

    A shallow embedding of [src/bdd_converter.py] (class [Builder]) and the
    properties of its tree-to-text rendering.

    Modelling conventions.
    - Python [str] values are [string]s of ASCII text; the string methods
      used by the converter ([lower], [strip], [rstrip], [join], [replace],
      [in]) are written out below with their ASCII behaviour.
    - Python exceptions are the [Raise] results of [Res]; effects (the
      mutable [body] lists of the test objects and the files on disk) are
      threaded through the state monad [M] over a [World].
    - [robot.utils] and [os.path] are external: the functions the converter
      imports from them are the fields of [RobotUtils].  Opening a file
      with [file_writer] is taken to succeed.
    - What [print(test)] sends to the standard output is left out: it
      reaches no file. *)

From stdpp Require Import base strings list gmap.
From Stdlib Require Import Ascii.

Set Warnings "-register-all".

(** ** Python string methods *)

Module Py.

(** [c.lower()] for one ASCII character. *)
Definition lower_ascii (c : ascii) : ascii :=
  let n := nat_of_ascii c in
  if (65 <=? n) && (n <=? 90) then ascii_of_nat (n + 32) else c.

(** [s.lower()] *)
Fixpoint lower (s : string) : string :=
  match s with
  | EmptyString => EmptyString
  | String c s' => String (lower_ascii c) (lower s')
  end.

(** [s.startswith(p)] *)
Fixpoint startswith (p s : string) : bool :=
  match p, s with
  | EmptyString, _ => true
  | String a p', String b s' => Ascii.eqb a b && startswith p' s'
  | String _ _, EmptyString => false
  end.

(** [p in s] for strings: [p] occurs in [s] as a substring. *)
Fixpoint contains (p s : string) : bool :=
  startswith p s ||
  match s with
  | EmptyString => false
  | String _ s' => contains p s'
  end.

(** [sep.join(l)] *)
Definition join (sep : string) (l : list string) : string :=
  String.concat sep l.

(** [c in chars] for a single character. *)
Fixpoint mem (c : ascii) (chars : string) : bool :=
  match chars with
  | EmptyString => false
  | String d r => Ascii.eqb c d || mem c r
  end.

(** [c.isspace()] on ASCII: TAB..CR, FS..US and the space. *)
Definition isspace (c : ascii) : bool :=
  let n := nat_of_ascii c in
  ((9 <=? n) && (n <=? 13)) || ((28 <=? n) && (n <=? 32)).

Fixpoint lstrip_by (p : ascii → bool) (s : string) : string :=
  match s with
  | EmptyString => EmptyString
  | String c s' => if p c then lstrip_by p s' else s
  end.

Fixpoint rstrip_by (p : ascii → bool) (s : string) : string :=
  match s with
  | EmptyString => EmptyString
  | String c s' =>
      match rstrip_by p s' with
      | EmptyString => if p c then EmptyString else String c EmptyString
      | r => String c r
      end
  end.

(** [s.rstrip(chars)] *)
Definition rstrip (chars : string) (s : string) : string :=
  rstrip_by (λ c, mem c chars) s.

(** [s.strip()] *)
Definition strip (s : string) : string :=
  rstrip_by isspace (lstrip_by isspace s).

(** [s.replace(old, new)] where [old] and [new] are single characters. *)
Fixpoint replace (old new : ascii) (s : string) : string :=
  match s with
  | EmptyString => EmptyString
  | String c s' =>
      String (if Ascii.eqb c old then new else c) (replace old new s')
  end.

(** Truth value of an optional string: [None] and [''] are false. *)
Definition truthy (o : option string) : bool :=
  match o with
  | Some (String _ _) => true
  | _ => false
  end.

End Py.

(** ** Exceptions *)

Inductive PyExn : Type :=
| ValueError
| TypeError
| OtherError (what : string).

Inductive Res (A : Type) : Type :=
| Ok (a : A)
| Raise (e : PyExn).
Arguments Ok {A} a.
Arguments Raise {A} e.

(** ** The external collaborators

    What the converter imports from [robot.utils] and [os.path].  [secs] is
    the number type [timestr_to_secs] returns. *)

Record RobotUtils : Type := mkRobotUtils {
  secs : Type;
  timestr_to_secs : string → Res secs;
  secs_to_timestr : secs → Res string;
  seq2str2 : list string → string;
  get_link_path : string → string → Res string;
  dirname : string → string
}.

(** ** The input model (owned by the test-model library) *)

Inductive KwType : Type := KEYWORD | SETUP | TEARDOWN.

Record Keyword : Type := mkKeyword {
  kw_type : KwType;
  kw_name : string;
  kw_args : list string;
  kw_assign : list string
}.

Record IfBranch : Type := mkIfBranch {
  if_type : string;
  if_condition : option string
}.

Record TryBranch : Type := mkTryBranch {
  try_type : string;
  try_patterns : list string;
  try_variable : option string
}.

(** [branch.EXCEPT] *)
Definition EXCEPT : string := "EXCEPT".

Inductive KeywordNode : Type :=
| KwNode (kw : Keyword)
| ForNode (variables : list string) (flavor : string) (values : list string)
| WhileNode (condition : string)
| IfNode (body : list IfBranch)
| TryNode (body : list TryBranch).

(** ** Line records *)

Record LineRecord : Type := mkLine {
  lr_type : string;
  lr_name : string;
  lr_arguments : string
}.

(** ** The keyword normalizer *)

Section Normalizer.
Context (U : RobotUtils).

Definition _get_kw_name (kw : Keyword) : string :=
  match kw_assign kw with
  | [] => kw_name kw
  | assign =>
      Py.join ", " (map (Py.rstrip "= ") assign) +:+ " = " +:+ kw_name kw
  end.

Definition _build_data_row (row_data : list string) : string :=
  let row_data := Py.join " | " row_data in
  String "009" "| " +:+ row_data +:+ " |".

Definition _build_keyword (kw : Keyword) (kw_type : string) : LineRecord :=
  if String.eqb (_get_kw_name kw) "^" || String.eqb (_get_kw_name kw) ">"
  then {| lr_type := kw_type;
          lr_name := "";
          lr_arguments := _build_data_row (kw_args kw) |}
  else {| lr_type := kw_type;
          lr_name := _get_kw_name kw;
          lr_arguments := Py.join ", " (kw_args kw) |}.

Definition _build_for (variables : list string) (flavor : string)
    (values : list string) : LineRecord :=
  let name :=
    Py.join ", " variables +:+ " " +:+ flavor +:+ " " +:+ seq2str2 U values in
  {| lr_type := "FOR"; lr_name := name; lr_arguments := "" |}.

Definition _build_while (condition : string) : LineRecord :=
  {| lr_type := "WHILE"; lr_name := condition; lr_arguments := "" |}.

Fixpoint _build_if (body : list IfBranch) : list LineRecord :=
  match body with
  | [] => []
  | branch :: rest =>
      {| lr_type := if_type branch;
         lr_name := default "" (if_condition branch);
         lr_arguments := "" |} :: _build_if rest
  end.

Definition try_branch_name (branch : TryBranch) : string :=
  if String.eqb (try_type branch) EXCEPT then
    let patterns := Py.join ", " (try_patterns branch) in
    let as_var :=
      if Py.truthy (try_variable branch)
      then "AS " +:+ default "" (try_variable branch) else "" in
    Py.strip (patterns +:+ " " +:+ as_var)
  else "".

Fixpoint _build_try (body : list TryBranch) : list LineRecord :=
  match body with
  | [] => []
  | branch :: rest =>
      {| lr_type := try_type branch;
         lr_name := try_branch_name branch;
         lr_arguments := "" |} :: _build_try rest
  end.

(** The records one truthy node yields. *)
Definition build_node (kw : KeywordNode) : list LineRecord :=
  match kw with
  | KwNode k =>
      match kw_type k with
      | SETUP => [_build_keyword k "SETUP"]
      | TEARDOWN => [_build_keyword k "TEARDOWN"]
      | KEYWORD => [_build_keyword k "KEYWORD"]
      end
  | ForNode variables flavor values => [_build_for variables flavor values]
  | WhileNode condition => [_build_while condition]
  | IfNode body => _build_if body
  | TryNode body => _build_try body
  end.

(** The generator, consumed by [list(...)] at both call sites.  [None] is
    an element for which [not kw] holds. *)
Fixpoint _build_keywords (keywords : list (option KeywordNode))
    : list LineRecord :=
  match keywords with
  | [] => []
  | None :: rest => _build_keywords rest
  | Some kw :: rest => build_node kw ++ _build_keywords rest
  end.

End Normalizer.

(** ** Suites and tests

    The [body] of a test is a Python list object that [_build_test] updates
    in place; a test node holds its address in the [heap] of the [World].
    An element of a body is [Some] node, or [None] for an element whose
    truth value is false (a keyword object without a name). *)

Definition loc : Type := nat.

Record TestNode : Type := mkTest {
  t_name : string;
  t_longname : string;
  t_id : string;
  t_doc : string;
  t_tags : list string;
  t_timeout : option string;
  t_body : loc;
  t_setup : option Keyword;
  t_teardown : option Keyword
}.

Inductive SuiteNode : Type := mkSuite {
  s_source : option string;
  s_id : string;
  s_name : string;
  s_longname : string;
  s_doc : string;
  s_test_count : nat;
  s_suites : list SuiteNode;
  s_tests : list TestNode;
  s_setup : option Keyword;
  s_teardown : option Keyword
}.

(** ** Produced records *)

Record TestRecord : Type := mkTestRecord {
  tr_name : string;
  tr_fullName : string;
  tr_id : string;
  tr_doc : string;
  tr_tags : list string;
  tr_timeout : string;
  tr_keywords : list LineRecord
}.

(** [sr_tests] holds what [_write_tests] returns, which is [None] on every
    path. *)
Inductive SuiteRecord : Type := mkSuiteRecord {
  sr_source : string;
  sr_relativeSource : string;
  sr_id : string;
  sr_name : string;
  sr_fullName : string;
  sr_doc : string;
  sr_numberOfTests : nat;
  sr_suites : list SuiteRecord;
  sr_tests : unit;
  sr_keywords : list LineRecord
}.

(** ** State and exceptions *)

Record World : Type := mkWorld {
  heap : gmap loc (list (option KeywordNode));
  files : gmap string string
}.

Definition M (A : Type) : Type := World → Res A * World.

Definition ret {A} (a : A) : M A := λ w, (Ok a, w).

Definition bind {A B} (m : M A) (k : A → M B) : M B :=
  λ w, match m w with
       | (Ok a, w') => k a w'
       | (Raise e, w') => (Raise e, w')
       end.

Definition lift {A} (r : Res A) : M A := λ w, (r, w).

Notation "x <- c1 ;; c2" := (bind c1 (λ x, c2))
  (at level 100, c1 at next level, right associativity).
Notation "c1 ;; c2" := (bind c1 (λ _, c2))
  (at level 100, right associativity).

(** [[f(x) for x in l]] *)
Definition mapM {A B} (f : A → M B) : list A → M (list B) :=
  fix go (l : list A) : M (list B) :=
    match l with
    | [] => ret []
    | x :: l' => y <- f x ;; ys <- go l' ;; ret (y :: ys)
    end.

(** [for x in l: f(x)] *)
Definition forM_ {A} (l : list A) (f : A → M unit) : M unit :=
  (fix go (l : list A) : M unit :=
     match l with
     | [] => ret ()
     | x :: l' => f x ;; go l'
     end) l.

(** The list object stored at an address. *)
Definition body_at (w : World) (l : loc) : list (option KeywordNode) :=
  default [] (heap w !! l).

Definition get_body (l : loc) : M (list (option KeywordNode)) :=
  λ w, (Ok (body_at w l), w).

(** [body.insert(0, kw)] *)
Definition body_insert0 (l : loc) (kw : option KeywordNode) : M unit :=
  λ w, (Ok (), {| heap := <[l := kw :: body_at w l]> (heap w);
                  files := files w |}).

(** [body.append(kw)] *)
Definition body_append (l : loc) (kw : option KeywordNode) : M unit :=
  λ w, (Ok (), {| heap := <[l := body_at w l ++ [kw]]> (heap w);
                  files := files w |}).

(** [file_writer(path)]: the file is opened for writing, hence emptied. *)
Definition file_open (path : string) : M unit :=
  λ w, (Ok (), {| heap := heap w; files := <[path := ""]> (files w) |}).

(** [feature.write(s)]; the [with] block closes the file on every exit, so
    what was written stays in the file. *)
Definition file_write (path s : string) : M unit :=
  λ w, (Ok (), {| heap := heap w;
                  files := <[path := default "" (files w !! path) +:+ s]>
                             (files w) |}).

(** A value that is a [str] or a [list] of strings. *)
Inductive PyVal : Type :=
| PyStr (s : string)
| PyList (l : list string).

(** [a + b] for a [str] on the left: concatenation when [b] is a [str],
    [TypeError] otherwise. *)
Definition str_add (a : string) (b : PyVal) : Res string :=
  match b with
  | PyStr s => Ok (a +:+ s)
  | PyList _ => Raise TypeError
  end.

Definition TAB : string := String "009" "".
Definition NL : string := String "010" "".

(** ** The builder *)

Section Builder.
Context (U : RobotUtils).
(** [self._output_path] *)
Context (_output_path : option string).

Definition _get_timeout (timeout : option string) : Res string :=
  match timeout with
  | None => Ok ""
  | Some timeout =>
      match timestr_to_secs U timeout with
      | Ok s =>
          match secs_to_timestr U s with
          | Ok tout => Ok tout
          | Raise ValueError => Ok timeout
          | Raise e => Raise e
          end
      | Raise ValueError => Ok timeout
      | Raise e => Raise e
      end
  end.

Definition _get_relative_source (source : option string) : Res string :=
  if negb (Py.truthy source) || negb (Py.truthy _output_path) then Ok ""
  else get_link_path U (default "" source)
         (dirname U (default "" _output_path)).

(** The name a test is shown under. *)
Definition test_name (name : string) : string :=
  if negb (Py.contains "scenario" (Py.lower name))
  then "Scenario: " +:+ name
  else name.

Definition _build_test (test : TestNode) : M TestRecord :=
  match t_setup test with
  | Some setup => body_insert0 (t_body test) (Some (KwNode setup))
  | None => ret ()
  end ;;
  match t_teardown test with
  | Some teardown => body_append (t_body test) (Some (KwNode teardown))
  | None => ret ()
  end ;;
  timeout <- lift (_get_timeout (t_timeout test)) ;;
  body <- get_body (t_body test) ;;
  ret {| tr_name := test_name (t_name test);
         tr_fullName := t_longname test;
         tr_id := t_id test;
         tr_doc := t_doc test;
         tr_tags := t_tags test;
         tr_timeout := timeout;
         tr_keywords := _build_keywords U body |}.

(** The body of [for keyword in test['keywords']]. *)
Definition write_keyword (feature : string) (keyword : LineRecord) : M unit :=
  file_write feature
    (TAB +:+ TAB +:+ lr_name keyword +:+ lr_arguments keyword +:+ NL).

(** The body of [for test in tests]; [test['tags']] is a list. *)
Definition write_test (feature : string) (test : TestRecord) : M unit :=
  line <- lift (str_add "t" (PyList (tr_tags test))) ;;
  file_write feature line ;;
  file_write feature (TAB +:+ tr_name test +:+ NL) ;;
  forM_ (tr_keywords test) (write_keyword feature) ;;
  file_write feature NL.

Definition feature_filename (name : string) : string :=
  Py.replace " " "_" name +:+ ".feature".

(** The block [with file_writer(filename, ...) as feature]. *)
Definition write_feature (filename name : string) (tests : list TestRecord)
    : M unit :=
  file_open filename ;;
  file_write filename ("Feature: " +:+ name +:+ NL +:+ NL +:+ NL) ;;
  forM_ tests (write_test filename).

(** [_write_tests] has no [return] statement: its value is [None]. *)
Definition _write_tests (suite : SuiteNode) : M unit :=
  match s_tests suite with
  | [] => ret ()
  | _ =>
      tests <- mapM _build_test (s_tests suite) ;;
      let filename := feature_filename (s_name suite) in
      write_feature filename (s_name suite) tests
  end.

Definition opt_node (kw : option Keyword) : option KeywordNode :=
  KwNode <$> kw.

Fixpoint _build_suite (suite : SuiteNode) : M SuiteRecord :=
  relativeSource <- lift (_get_relative_source (s_source suite)) ;;
  suites <- mapM _build_suite (s_suites suite) ;;
  tests <- _write_tests suite ;;
  ret {| sr_source := default "" (s_source suite);
         sr_relativeSource := relativeSource;
         sr_id := s_id suite;
         sr_name := s_name suite;
         sr_fullName := s_longname suite;
         sr_doc := s_doc suite;
         sr_numberOfTests := s_test_count suite;
         sr_suites := suites;
         sr_tests := tests;
         sr_keywords :=
           _build_keywords U
             [opt_node (s_setup suite); opt_node (s_teardown suite)] |}.

End Builder.

(** The world before anything is allocated or written. *)
Definition empty_world : World := {| heap := ∅; files := ∅ |}.

(** * Vocabulary of the properties *)

(** ** Names *)

(** [pat] occurs in [name] when letter case is ignored: some substring of
    [name] equals [pat] after both are put in lower case. *)
Definition occurs_ci (pat name : string) : Prop :=
  ∃ pre mid post,
    name = pre +:+ mid +:+ post ∧ Py.lower mid = Py.lower pat.

(** ** Line records *)

(** The number of line records a body node stands for: one for a keyword,
    a FOR or a WHILE, one per branch for an IF or a TRY; an element of a
    body that is false stands for none. *)
Definition node_lines (kw : KeywordNode) : nat :=
  match kw with
  | KwNode _ | ForNode _ _ _ | WhileNode _ => 1
  | IfNode body => length body
  | TryNode body => length body
  end.

Definition flattened_length (body : list (option KeywordNode)) : nat :=
  sum_list_with (from_option node_lines 0) body.

(** One for a setup or teardown that is present, zero otherwise. *)
Definition present (kw : option Keyword) : nat :=
  if kw is Some _ then 1 else 0.

(** What is expected of the line record [r] of the branch [b] of a TRY
    block. *)
Definition try_line_spec (b : TryBranch) (r : LineRecord) : Prop :=
  lr_type r = try_type b ∧
  lr_arguments r = "" ∧
  (try_type b ≠ "EXCEPT" → lr_name r = "") ∧
  (try_type b = "EXCEPT" → Py.truthy (try_variable b) = false →
     lr_name r = Py.strip (Py.join ", " (try_patterns b))) ∧
  (try_type b = "EXCEPT" →
     ∀ v, try_variable b = Some v → v ≠ "" →
       lr_name r = Py.strip (Py.join ", " (try_patterns b) +:+ " AS " +:+ v)).

(** ** Timeouts *)

(** The contract of the duration functions the formatter relies on: an
    invalid value is reported by [ValueError] and by nothing else. *)
Definition raises_only_ValueError {A B} (f : A → Res B) : Prop :=
  ∀ x e, f x = Raise e → e = ValueError.

(** How formatting the timeouts of [tests], in order, ends. *)
Fixpoint timeouts_status (U : RobotUtils) (tests : list TestNode) : Res unit :=
  match tests with
  | [] => Ok ()
  | test :: rest =>
      match _get_timeout U (t_timeout test) with
      | Ok _ => timeouts_status U rest
      | Raise e => Raise e
      end
  end.

(** ** Bodies and files *)

(** The body list of a test once [_build_test] has run on it. *)
Definition extended_body (test : TestNode)
    (body : list (option KeywordNode)) : list (option KeywordNode) :=
  (Some ∘ KwNode <$> option_list (t_setup test)) ++ body ++
  (Some ∘ KwNode <$> option_list (t_teardown test)).

(** The first line of a feature file and the two blank lines after it. *)
Definition feature_header (name : string) : string :=
  "Feature: " +:+ name +:+ NL +:+ NL +:+ NL.

(** A computation is framed when its result does not depend on the world
    it starts in, and the files it leaves are those it leaves when started
    in the empty world, laid over the files that were there. *)
Definition framed {A} (m : M A) : Prop :=
  ∀ w, (m w).1 = (m empty_world).1 ∧
       files (m w).2 = files (m empty_world).2 ∪ files w.

(** A suite and the suites below it, the suite first. *)
Fixpoint all_suites (suite : SuiteNode) : list SuiteNode :=
  suite :: flat_map all_suites (s_suites suite).



(** ** Fields that are not rendered *)

(** A test with its doc, id and long name blanked. *)
Definition blank_described (test : TestNode) : TestNode :=
  {| t_name := t_name test;
     t_longname := "";
     t_id := "";
     t_doc := "";
     t_tags := t_tags test;
     t_timeout := t_timeout test;
     t_body := t_body test;
     t_setup := t_setup test;
     t_teardown := t_teardown test |}.

(** A test with its timeout, doc, id and long name blanked. *)
Definition erase_test (test : TestNode) : TestNode :=
  {| t_name := t_name test;
     t_longname := "";
     t_id := "";
     t_doc := "";
     t_tags := t_tags test;
     t_timeout := None;
     t_body := t_body test;
     t_setup := t_setup test;
     t_teardown := t_teardown test |}.

(** A suite tree with [f] applied to every test. *)
Fixpoint map_tests (f : TestNode → TestNode) (suite : SuiteNode)
    : SuiteNode :=
  {| s_source := s_source suite;
     s_id := s_id suite;
     s_name := s_name suite;
     s_longname := s_longname suite;
     s_doc := s_doc suite;
     s_test_count := s_test_count suite;
     s_suites := map (map_tests f) (s_suites suite);
     s_tests := map f (s_tests suite);
     s_setup := s_setup suite;
     s_teardown := s_teardown suite |}.

(** Two suite trees are the same except in the doc, id and long name of
    their tests. *)
Definition same_but_described (suite1 suite2 : SuiteNode) : Prop :=
  map_tests blank_described suite1 = map_tests blank_described suite2.

(** Two suite trees are the same except in the timeout, doc, id and long
    name of their tests. *)
Definition same_rendered (suite1 suite2 : SuiteNode) : Prop :=
  map_tests erase_test suite1 = map_tests erase_test suite2.

(** The timeout of every test of the tree is formatted without an
    exception. *)
Definition timeouts_return (U : RobotUtils) (suite : SuiteNode) : Prop :=
  ∀ d test, d ∈ all_suites suite → test ∈ s_tests d →
    ∃ tout, _get_timeout U (t_timeout test) = Ok tout.

(** Building the record of [test'] changes the world as building the
    record of [test] does, and ends the same way. *)
Definition builds_alike (U : RobotUtils) (test' test : TestNode) : Prop :=
  ∀ w,
    (_build_test U test' w).2 = (_build_test U test w).2 ∧
    match (_build_test U test' w).1, (_build_test U test w).1 with
    | Ok _, Ok _ => True
    | Raise e', Raise e => e' = e
    | _, _ => False
    end.

(** * Running the builder *)

(** ** An instance of the external interface

    A small stand-in for [robot.utils] and [os.path] on which the builder
    can be run: two spellings of one minute are the known durations, lists
    are shown as [[ a | b ]], and paths are POSIX paths. *)

Module Sample.

Definition timestr_to_secs (timestr : string) : Res nat :=
  if String.eqb timestr "1m" || String.eqb timestr "60s" then Ok 60
  else Raise ValueError.

Definition secs_to_timestr (secs : nat) : Res string :=
  Ok (if secs =? 60 then "1 minute" else "some seconds").

Definition seq2str2 (sequence : list string) : string :=
  match sequence with
  | [] => "[ ]"
  | _ => "[ " +:+ Py.join " | " sequence +:+ " ]"
  end.

Definition is_slash (c : ascii) : bool := Ascii.eqb c "/".

Definition dirname (p : string) : string :=
  let head := Py.rstrip_by (λ c, negb (is_slash c)) p in
  match Py.rstrip_by is_slash head with
  | EmptyString => head
  | stripped => stripped
  end.

Fixpoint drop_prefix (p s : string) : option string :=
  match p, s with
  | EmptyString, _ => Some s
  | String a p', String b s' =>
      if Ascii.eqb a b then drop_prefix p' s' else None
  | String _ _, EmptyString => None
  end.

Definition get_link_path (target base : string) : Res string :=
  match drop_prefix (base +:+ "/") target with
  | Some rest => Ok rest
  | None => Raise (OtherError "no relative path")
  end.

Definition utils : RobotUtils :=
  mkRobotUtils nat timestr_to_secs secs_to_timestr seq2str2 get_link_path
    dirname.

End Sample.

(** ** Sample inputs: the suite "Login Suite" *)

Module Login.

Definition open_browser : KeywordNode :=
  KwNode (mkKeyword KEYWORD "Open Browser" ["chrome"] []).

Definition retry : KeywordNode :=
  IfNode [mkIfBranch "IF" (Some "$retry"); mkIfBranch "ELSE" None].

Definition prepare : Keyword := mkKeyword SETUP "Prepare" [] [].

Definition body_loc : loc := 0.

(** A test with a setup, no teardown and a body of two nodes. *)
Definition test : TestNode :=
  {| t_name := "Successful login";
     t_longname := "Login Suite.Successful login";
     t_id := "s1-t1";
     t_doc := "";
     t_tags := ["smoke"];
     t_timeout := Some "1m";
     t_body := body_loc;
     t_setup := Some prepare;
     t_teardown := None |}.

(** The same test under another id, with a doc and another timeout. *)
Definition test_redocumented : TestNode :=
  {| t_name := "Successful login";
     t_longname := "Login.Successful login";
     t_id := "s7-t3";
     t_doc := "Logs in with a valid account.";
     t_tags := ["smoke"];
     t_timeout := Some "soon";
     t_body := body_loc;
     t_setup := Some prepare;
     t_teardown := None |}.

Definition world : World :=
  {| heap := {[ body_loc := [Some open_browser; Some retry] ]}; files := ∅ |}.

(** The same world with an element that is false in the body. *)
Definition world_with_falsy : World :=
  {| heap := {[ body_loc := [Some open_browser; None; Some open_browser] ]};
     files := ∅ |}.

Definition suite_of (tests : list TestNode) : SuiteNode :=
  {| s_source := Some "/work/tests/login.robot";
     s_id := "s1";
     s_name := "Login Suite";
     s_longname := "Login Suite";
     s_doc := "";
     s_test_count := 1;
     s_suites := [];
     s_tests := tests;
     s_setup := None;
     s_teardown := None |}.

Definition suite : SuiteNode := suite_of [test].

Definition suite_redocumented : SuiteNode := suite_of [test_redocumented].

(** A second suite with one test, whose body is the list at address 1. *)
Definition logout_test : TestNode :=
  {| t_name := "Scenario: logout";
     t_longname := "Logout Suite.Scenario: logout";
     t_id := "s2-t1";
     t_doc := "";
     t_tags := [];
     t_timeout := None;
     t_body := 1;
     t_setup := None;
     t_teardown := None |}.

Definition logout_suite : SuiteNode :=
  {| s_source := Some "/work/tests/logout.robot";
     s_id := "s2";
     s_name := "Logout Suite";
     s_longname := "Logout Suite";
     s_doc := "";
     s_test_count := 1;
     s_suites := [];
     s_tests := [logout_test];
     s_setup := None;
     s_teardown := None |}.

(** A directory of suites: no test of its own. *)
Definition directory_of (suites : list SuiteNode) : SuiteNode :=
  {| s_source := Some "/work/tests";
     s_id := "s0";
     s_name := "Tests";
     s_longname := "Tests";
     s_doc := "";
     s_test_count := length suites;
     s_suites := suites;
     s_tests := [];
     s_setup := None;
     s_teardown := None |}.

Definition directory : SuiteNode := directory_of [].

Definition tree : SuiteNode := directory_of [suite; logout_suite].

End Login.

(** * The writer

    [FeatureWriter] wraps the builder; [generated] stands for the value of
    [int(time.time() * 1000)], read from the clock after the suite record
    is built. *)

Record FeatureWriter : Type := mkFeatureWriter {
  fw_output : option string;
  fw_suite : SuiteNode;
  fw_title : string
}.

(** [FeatureWriter.__init__] *)
Definition FeatureWriter_init (output : option string) (suite : SuiteNode)
    (title : option string) : FeatureWriter :=
  {| fw_output := output;
     fw_suite := suite;
     fw_title :=
       if Py.truthy title then Py.replace "_" " " (default "" title)
       else s_name suite |}.

Record ConvertedData : Type := mkConvertedData {
  cd_suite : SuiteRecord;
  cd_title : string;
  cd_generated : Z
}.

Definition convert_data (U : RobotUtils) (generated : Z)
    (self : FeatureWriter) : M ConvertedData :=
  suite <- _build_suite U (fw_output self) (fw_suite self) ;;
  ret {| cd_suite := suite;
         cd_title := fw_title self;
         cd_generated := generated |}.

(** ** More vocabulary *)

(** The suites of a tree in the order their tests are written: the suites
    below first, then the suite. *)
Fixpoint visit_order (suite : SuiteNode) : list SuiteNode :=
  flat_map visit_order (s_suites suite) ++ [suite].

Definition has_tests (suite : SuiteNode) : bool :=
  match s_tests suite with
  | [] => false
  | _ :: _ => true
  end.

(** How a computation ends in the world [w] when [found] is the first
    suite with direct tests it comes to: with none it returns and leaves
    the world alone; with one it raises [TypeError], and the files are
    those of [w] with the header written to the feature file of that
    suite. *)
Definition stops_at {A} (found : option SuiteNode) (m : M A) (w : World)
    : Prop :=
  match found with
  | None => ∃ a, m w = (Ok a, w)
  | Some d =>
      (m w).1 = Raise TypeError ∧
      files (m w).2 =
        <[feature_filename (s_name d) := feature_header (s_name d)]> (files w)
  end.

(** The world after [_build_test] has run [n] times on the same test. *)
Definition rebuilt (U : RobotUtils) (test : TestNode) (n : nat) (w : World)
    : World :=
  Nat.iter n (λ w, (_build_test U test w).2) w.

(** The keyword [kw] with [suffix] added to each assigned variable. *)
Definition with_assign_suffix (suffix : string) (kw : Keyword) : Keyword :=
  {| kw_type := kw_type kw;
     kw_name := kw_name kw;
     kw_args := kw_args kw;
     kw_assign := (λ a, a +:+ suffix) <$> kw_assign kw |}.

(** What is expected of the line record [r] of the branch [b] of an IF
    block. *)
Definition if_line_spec (b : IfBranch) (r : LineRecord) : Prop :=
  lr_type r = if_type b ∧
  lr_arguments r = "" ∧
  (if_condition b = None → lr_name r = "") ∧
  (∀ condition, if_condition b = Some condition → lr_name r = condition).

(** [kw] is a row of a data table: no assigned variable, and the name is
    one of the two row markers. *)
Definition is_data_row (kw : Keyword) : Prop :=
  kw_assign kw = [] ∧ (kw_name kw = "^" ∨ kw_name kw = ">").

(** ** An instance of the external interface that can fail

    Durations are a number of seconds or infinite; rendering an infinite
    duration fails with an error that is not a [ValueError]. *)

Module Faulty.

Definition timestr_to_secs (timestr : string) : Res (option nat) :=
  if String.eqb timestr "inf" then Ok None
  else if String.eqb timestr "60s" then Ok (Some 60)
  else Raise ValueError.

Definition secs_to_timestr (secs : option nat) : Res string :=
  match secs with
  | Some _ => Ok "1 minute"
  | None => Raise (OtherError "OverflowError")
  end.

Definition utils : RobotUtils :=
  mkRobotUtils (option nat) timestr_to_secs secs_to_timestr Sample.seq2str2
    Sample.get_link_path Sample.dirname.

(** A test whose timeout is infinite. *)
Definition endless_test : TestNode :=
  {| t_name := "Waits";
     t_longname := "Login Suite.Waits";
     t_id := "s1-t2";
     t_doc := "";
     t_tags := [];
     t_timeout := Some "inf";
     t_body := 2;
     t_setup := None;
     t_teardown := None |}.

Definition suite : SuiteNode := Login.suite_of [Login.test; endless_test].

(** The same test with a timeout of one minute, and its suite. *)
Definition timed_test : TestNode :=
  {| t_name := "Waits";
     t_longname := "Login Suite.Waits";
     t_id := "s1-t2";
     t_doc := "";
     t_tags := [];
     t_timeout := Some "60s";
     t_body := 2;
     t_setup := None;
     t_teardown := None |}.

Definition timed_suite : SuiteNode :=
  Login.suite_of [Login.test; timed_test].

End Faulty.

(** * Properties *)

(** ** Strings *)

Section StringFacts.

Lemma startswith_spec (p s : string) :
  Py.startswith p s = true ↔ ∃ t, s = p +:+ t.
Proof.
  revert s. induction p as [|a p IH]; intros s; simpl.
  - split; [intros _; by exists s | done].
  - destruct s as [|b s].
    + split; [done | intros [t Ht]; discriminate].
    + rewrite andb_true_iff, IH. split.
      * intros [Hab [t ->]]. apply Ascii.eqb_eq in Hab as ->. by exists t.
      * intros [t Ht]. injection Ht as -> ->.
        split; [apply Ascii.eqb_refl | by exists t].
Qed.

Lemma contains_spec (p s : string) :
  Py.contains p s = true ↔ ∃ pre post, s = pre +:+ p +:+ post.
Proof.
  induction s as [|c s IH]; simpl; rewrite orb_true_iff, startswith_spec.
  - split.
    + intros [[t Ht]|?]; [|done]. by exists "", t.
    + intros [[|? ?] [post H]]; simpl in H; [|discriminate].
      left. by exists post.
  - rewrite IH. split.
    + intros [[t Ht]|(pre & post & ->)].
      * by exists "", t.
      * by exists (String c pre), post.
    + intros [[|d pre] [post H]]; simpl in H.
      * left. by exists post.
      * right. injection H as -> ->. by exists pre, post.
Qed.

Lemma string_length_app (a b : string) :
  String.length (a +:+ b) = String.length a + String.length b.
Proof. induction a as [|c a IH]; simpl; [done | by rewrite IH]. Qed.

Lemma lower_app (a b : string) :
  Py.lower (a +:+ b) = Py.lower a +:+ Py.lower b.
Proof. induction a as [|c a IH]; simpl; [done | by rewrite IH]. Qed.

Lemma lower_split (s a b : string) :
  Py.lower s = a +:+ b →
  ∃ s1 s2, s = s1 +:+ s2 ∧ Py.lower s1 = a ∧ Py.lower s2 = b.
Proof.
  revert s. induction a as [|c a IH]; intros s H; simpl in H.
  - by exists "", s.
  - destruct s as [|d s]; [discriminate|]. simpl in H.
    injection H as Hc Hs. destruct (IH _ Hs) as (s1 & s2 & -> & <- & <-).
    exists (String d s1), s2. simpl. by rewrite Hc.
Qed.

Lemma rstrip_by_snoc (p : ascii → bool) (s : string) (c : ascii) :
  p c = true → Py.rstrip_by p (s +:+ String c "") = Py.rstrip_by p s.
Proof.
  intros Hc. induction s as [|d s IH]; simpl.
  - by rewrite Hc.
  - by rewrite IH.
Qed.

Lemma strip_snoc_space (s : string) : Py.strip (s +:+ " ") = Py.strip s.
Proof.
  unfold Py.strip. induction s as [|d s IH]; [done|].
  change (String d s +:+ " ") with (String d (s +:+ " ")).
  cbn [Py.lstrip_by]. destruct (Py.isspace d); [done|].
  by apply (rstrip_by_snoc Py.isspace (String d s)).
Qed.

End StringFacts.

Lemma contains_lower_occurs_ci (name : string) :
  Py.contains "scenario" (Py.lower name) = true ↔ occurs_ci "scenario" name.
Proof.
  rewrite contains_spec. split.
  - intros (pre & post & H).
    apply lower_split in H as (s1 & s2 & -> & _ & H).
    apply lower_split in H as (mid & s3 & -> & Hmid & _).
    by exists s1, mid, s3.
  - intros (pre & mid & post & -> & Hmid).
    exists (Py.lower pre), (Py.lower post).
    rewrite !lower_app, Hmid. done.
Qed.

Lemma prefixed_name_differs (name : string) : "Scenario: " +:+ name ≠ name.
Proof.
  intros H. apply (f_equal String.length) in H.
  rewrite string_length_app in H. simpl in H. lia.
Qed.

(** The name policy of [_build_test], on the name alone. *)
Lemma test_name_policy (name : string) :
  (test_name name = "Scenario: " +:+ name ↔ ¬ occurs_ci "scenario" name) ∧
  (occurs_ci "scenario" name → test_name name = name).
Proof.
  unfold test_name. rewrite <- contains_lower_occurs_ci.
  destruct (Py.contains "scenario" (Py.lower name)); simpl.
  - split; [|done]. split; [|done].
    intros H. symmetry in H. by apply prefixed_name_differs in H.
  - split; [|done]. split; [|done]. intros _. discriminate.
Qed.

(** ** The keyword normalizer *)

Section NormalizerFacts.
Context (U : RobotUtils).

Lemma build_if_length (body : list IfBranch) :
  length (_build_if body) = length body.
Proof. induction body; simpl; congruence. Qed.

Lemma build_try_length (body : list TryBranch) :
  length (_build_try body) = length body.
Proof. induction body; simpl; congruence. Qed.

Lemma build_node_length (kw : KeywordNode) :
  length (build_node U kw) = node_lines kw.
Proof.
  destruct kw as [k| | | |]; simpl;
    auto using build_if_length, build_try_length.
  by destruct (kw_type k).
Qed.

Lemma build_keywords_length (body : list (option KeywordNode)) :
  length (_build_keywords U body) = flattened_length body.
Proof.
  unfold flattened_length. induction body as [|[kw|] body IH]; [done| |done].
  cbn [_build_keywords sum_list_with from_option].
  by rewrite length_app, build_node_length, IH.
Qed.

Lemma try_branch_line (b : TryBranch) :
  try_line_spec b
    {| lr_type := try_type b; lr_name := try_branch_name b;
       lr_arguments := "" |}.
Proof.
  unfold try_line_spec, try_branch_name, EXCEPT.
  cbn [lr_type lr_name lr_arguments].
  destruct (String.eqb_spec (try_type b) "EXCEPT") as [He|He].
  - repeat split; [done| |].
    + intros _ ->. apply (strip_snoc_space (Py.join ", " (try_patterns b))).
    + intros _ v -> Hv. destruct v; done.
  - repeat split; done.
Qed.

Lemma build_try_spec (body : list TryBranch) :
  Forall2 try_line_spec body (_build_try body).
Proof.
  induction body; simpl; constructor; auto using try_branch_line.
Qed.

End NormalizerFacts.

Example data_table_row (U : RobotUtils) :
  _build_keywords U [Some (KwNode (mkKeyword KEYWORD "^" ["a"; "b"; "c"] []))]
  = [{| lr_type := "KEYWORD"; lr_name := "";
        lr_arguments := TAB +:+ "| a | b | c |" |}].
Proof. reflexivity. Qed.

Example assigned_keyword_name :
  _get_kw_name (mkKeyword KEYWORD "Get Value" [] ["x ="]) = "x = Get Value".
Proof. reflexivity. Qed.

Example except_branch_name :
  try_branch_name (mkTryBranch "EXCEPT" ["ValueError"; "TypeError"] (Some "e"))
  = "ValueError, TypeError AS e".
Proof. reflexivity. Qed.

(** C9: a TRY/EXCEPT root is normalized to one line record per branch, in
    order; each record has the branch's type tag and empty arguments; its
    name is empty for a branch that is not an EXCEPT, and for an EXCEPT it
    is the patterns joined with [", "], then ["AS <variable>"] when a
    variable is set, with the surrounding whitespace stripped. *)
Theorem try_root_normalized (U : RobotUtils) (body : list TryBranch) :
  Forall2 try_line_spec body (_build_keywords U [Some (TryNode body)]).
Proof.
  cbn [_build_keywords build_node]. rewrite app_nil_r. apply build_try_spec.
Qed.

(** ** The timeout formatter *)

Lemma get_timeout_returns (U : RobotUtils) (timeout : option string) :
  raises_only_ValueError (timestr_to_secs U) →
  raises_only_ValueError (secs_to_timestr U) →
  ∃ tout, _get_timeout U timeout = Ok tout.
Proof.
  intros Hparse Hrender.
  destruct timeout as [timeout|]; [|by exists ""]. unfold _get_timeout.
  destruct (timestr_to_secs U timeout) as [s|e] eqn:Hs.
  - destruct (secs_to_timestr U s) as [tout|e] eqn:Ht; [by exists tout|].
    apply Hrender in Ht as ->. by exists timeout.
  - apply Hparse in Hs as ->. by exists timeout.
Qed.

(** Whatever the duration functions do, no [ValueError] leaves the
    formatter. *)
Lemma get_timeout_catches_ValueError (U : RobotUtils)
    (timeout : option string) :
  _get_timeout U timeout ≠ Raise ValueError.
Proof.
  destruct timeout as [timeout|]; [|done]. unfold _get_timeout.
  destruct (timestr_to_secs U timeout) as [s|[]]; [|done..].
  by destruct (secs_to_timestr U s) as [tout|[]].
Qed.

Example timeout_one_minute :
  _get_timeout Sample.utils (Some "1m") = Ok "1 minute" ∧
  _get_timeout Sample.utils (Some "60s") = Ok "1 minute".
Proof. split; reflexivity. Qed.



Lemma sample_timeouts_ok :
  raises_only_ValueError Sample.timestr_to_secs ∧
  raises_only_ValueError Sample.secs_to_timestr.
Proof.
  split; intros x e; unfold Sample.timestr_to_secs, Sample.secs_to_timestr.
  - destruct (_ || _); congruence.
  - congruence.
Qed.


(** ** The test builder *)

Section TestBuilderFacts.
Context (U : RobotUtils).

Lemma body_at_insert_eq (h : gmap loc (list (option KeywordNode))) fs l
    body :
  body_at {| heap := <[l := body]> h; files := fs |} l = body.
Proof. unfold body_at. simpl. by rewrite lookup_insert_eq. Qed.

Lemma build_test_files (test : TestNode) (w : World) :
  files (_build_test U test w).2 = files w.
Proof.
  unfold _build_test, bind, body_insert0, body_append, lift, get_body, ret.
  destruct (t_setup test), (t_teardown test),
    (_get_timeout U (t_timeout test)); done.
Qed.

Lemma build_test_body (test : TestNode) (w : World) :
  body_at (_build_test U test w).2 (t_body test) =
  extended_body test (body_at w (t_body test)).
Proof.
  unfold _build_test, bind, body_insert0, body_append, lift, get_body, ret,
    extended_body.
  destruct (t_setup test), (t_teardown test),
    (_get_timeout U (t_timeout test)); cbn [snd fmap list_fmap option_list];
    rewrite ?body_at_insert_eq, ?app_nil_r; done.
Qed.

Lemma build_test_other (test : TestNode) (w : World) (l : loc) :
  l ≠ t_body test → body_at (_build_test U test w).2 l = body_at w l.
Proof.
  intros Hl.
  unfold _build_test, bind, body_insert0, body_append, lift, get_body, ret.
  destruct (t_setup test), (t_teardown test),
    (_get_timeout U (t_timeout test)); unfold body_at;
    cbn [snd heap]; rewrite ?lookup_insert_ne by done; done.
Qed.

Lemma build_test_result (test : TestNode) (w : World) :
  (_build_test U test w).1 =
  match _get_timeout U (t_timeout test) with
  | Ok timeout =>
      Ok {| tr_name := test_name (t_name test);
            tr_fullName := t_longname test;
            tr_id := t_id test;
            tr_doc := t_doc test;
            tr_tags := t_tags test;
            tr_timeout := timeout;
            tr_keywords :=
              _build_keywords U
                (extended_body test (body_at w (t_body test))) |}
  | Raise e => Raise e
  end.
Proof.
  unfold _build_test, bind, body_insert0, body_append, lift, get_body, ret,
    extended_body.
  destruct (t_setup test), (t_teardown test),
    (_get_timeout U (t_timeout test));
    cbn [fst snd fmap list_fmap option_list];
    rewrite ?body_at_insert_eq, ?app_nil_r; done.
Qed.

End TestBuilderFacts.

(** C4, as stated, fails: an element of the body that is false is a node
    of the body and yields no record.  Here the body has three elements,
    none of them a control block, and the test has a setup: the record has
    three keywords, not four. *)
Lemma falsy_node_yields_no_record :
  ∃ record w',
    _build_test Sample.utils Login.test Login.world_with_falsy
    = (Ok record, w') ∧
    length (tr_keywords record) ≠
      length (body_at Login.world_with_falsy (t_body Login.test)) +
      present (t_setup Login.test) + present (t_teardown Login.test).
Proof. eexists _, _. split; [reflexivity|]. vm_compute. discriminate. Qed.

(** C4, amended: the keywords of the test record are as many as the line
    records the elements of the test's body stand for (none for an element
    that is false, which is skipped; one for a keyword, a FOR or a WHILE;
    one per branch for an IF or a TRY), plus one for a setup and one for a
    teardown when present.  The record is produced whenever the timeout
    formatter returns. *)
Theorem record_keywords_count (U : RobotUtils) (test : TestNode) (w : World)
    (timeout : string)
    (Htimeout : _get_timeout U (t_timeout test) = Ok timeout) :
  ∃ record w',
    _build_test U test w = (Ok record, w') ∧
    length (tr_keywords record) =
      flattened_length (body_at w (t_body test)) +
      present (t_setup test) + present (t_teardown test).
Proof.
  pose proof (build_test_result U test w) as Hr. rewrite Htimeout in Hr.
  destruct (_build_test U test w) as [r w'] eqn:Hrun. simpl in Hr. subst r.
  eexists _, w'. split; [done|]. cbn [tr_keywords].
  rewrite build_keywords_length. unfold extended_body, flattened_length.
  rewrite !sum_list_with_app.
  destruct (t_setup test), (t_teardown test); simpl; lia.
Qed.

Lemma record_keywords_count_witness :
  ∃ record w',
    _build_test Sample.utils Login.test Login.world = (Ok record, w') ∧
    length (tr_keywords record) = 3 + 1 + 0.
Proof.
  exact (record_keywords_count Sample.utils Login.test Login.world "1 minute"
           eq_refl).
Defined.

(** C8: the name of the test record is the test's name with ["Scenario: "]
    put in front exactly when "scenario" does not occur in the name, letter
    case ignored; otherwise it is the test's name. *)
Theorem scenario_name_policy (U : RobotUtils) (test : TestNode) (w : World)
    (timeout : string)
    (Htimeout : _get_timeout U (t_timeout test) = Ok timeout) :
  ∃ record w',
    _build_test U test w = (Ok record, w') ∧
    (tr_name record = "Scenario: " +:+ t_name test ↔
       ¬ occurs_ci "scenario" (t_name test)) ∧
    (occurs_ci "scenario" (t_name test) → tr_name record = t_name test).
Proof.
  pose proof (build_test_result U test w) as Hr. rewrite Htimeout in Hr.
  destruct (_build_test U test w) as [r w'] eqn:Hrun. simpl in Hr. subst r.
  eexists _, w'. split; [done|]. cbn [tr_name]. apply test_name_policy.
Qed.

Lemma scenario_name_policy_witness :
  ∃ record w',
    _build_test Sample.utils Login.test Login.world = (Ok record, w') ∧
    (tr_name record = "Scenario: Successful login" ↔
       ¬ occurs_ci "scenario" "Successful login") ∧
    (occurs_ci "scenario" "Successful login" →
       tr_name record = "Successful login").
Proof.
  exact (scenario_name_policy Sample.utils Login.test Login.world "1 minute"
           eq_refl).
Defined.

(** C2, as stated, fails: building the record of a test that has a setup
    leaves a longer body list in the test node. *)
Lemma build_test_changes_body :
  body_at (_build_test Sample.utils Login.test Login.world).2
    (t_body Login.test)
  ≠ body_at Login.world (t_body Login.test).
Proof. vm_compute. discriminate. Qed.

(** C2, amended: [_build_test] updates the body list of the test node in
    place: afterwards it is the setup (when present), the former body and
    the teardown (when present); hence it is unchanged exactly when the
    test has neither.  No other body list and no file is touched. *)
Theorem build_test_body_effect (U : RobotUtils) (test : TestNode) (w : World) :
  let w' := (_build_test U test w).2 in
  body_at w' (t_body test) = extended_body test (body_at w (t_body test)) ∧
  (body_at w' (t_body test) = body_at w (t_body test) ↔
     t_setup test = None ∧ t_teardown test = None) ∧
  (∀ l, l ≠ t_body test → body_at w' l = body_at w l) ∧
  files w' = files w.
Proof.
  cbn zeta. rewrite build_test_body. split; [done|].
  split; [|split; [apply build_test_other | apply build_test_files]].
  unfold extended_body. split.
  - intros H. apply (f_equal length) in H. rewrite !length_app in H.
    destruct (t_setup test), (t_teardown test); simpl in H; (done || lia).
  - intros [-> ->]. simpl. by rewrite app_nil_r.
Qed.

(** ** The emitter *)

Section EmitterFacts.
Context (U : RobotUtils).

Lemma write_test_raises (feature : string) (test : TestRecord) (w : World) :
  write_test feature test w = (Raise TypeError, w).
Proof. reflexivity. Qed.

Lemma write_loop_raises (feature : string) (tests : list TestRecord)
    (w : World) :
  tests ≠ [] → forM_ tests (write_test feature) w = (Raise TypeError, w).
Proof. by destruct tests. Qed.

Lemma write_feature_run (filename name : string)
    (tests : list TestRecord) (w : World) :
  tests ≠ [] →
  write_feature filename name tests w =
  (Raise TypeError,
   {| heap := heap w;
      files := <[filename := feature_header name]> (files w) |}).
Proof.
  intros Hne. unfold write_feature, bind, file_open, file_write.
  rewrite write_loop_raises by done. cbn [heap files].
  by rewrite lookup_insert_eq, insert_insert_eq.
Qed.

(** Building the records of the tests of a suite: the files are left
    alone, and the records are built unless a timeout raises. *)
Lemma build_tests_run (tests : list TestNode) (w : World) :
  files (mapM (_build_test U) tests w).2 = files w ∧
  match (mapM (_build_test U) tests w).1 with
  | Ok records =>
      timeouts_status U tests = Ok () ∧ length records = length tests
  | Raise e => timeouts_status U tests = Raise e
  end.
Proof.
  revert w. induction tests as [|test tests IH]; intros w; [done|].
  cbn [mapM timeouts_status]. unfold bind.
  pose proof (build_test_result U test w) as Hr.
  pose proof (build_test_files U test w) as Hf.
  destruct (_build_test U test w) as [r w1]. cbn [fst snd] in Hr, Hf.
  destruct (_get_timeout U (t_timeout test)); subst r; [|done].
  destruct (IH w1) as [Hf1 Hr1].
  destruct (mapM (_build_test U) tests w1) as [[records|e] w2];
    cbn [fst snd] in *; [|by rewrite Hf1].
  unfold ret. cbn [fst snd length]. rewrite Hf1.
  destruct Hr1 as [-> ->]. done.
Qed.

(** What [_write_tests] does to the files, and how it ends. *)
Lemma write_tests_run (suite : SuiteNode) (w : World) :
  let run := _write_tests U suite w in
  match s_tests suite, timeouts_status U (s_tests suite) with
  | [], _ => run = (Ok (), w)
  | _ :: _, Ok _ =>
      run.1 = Raise TypeError ∧
      files run.2 =
        <[feature_filename (s_name suite) := feature_header (s_name suite)]>
          (files w)
  | _ :: _, Raise e => run.1 = Raise e ∧ files run.2 = files w
  end.
Proof.
  unfold _write_tests.
  destruct (s_tests suite) as [|test tests]; [done|]. cbn zeta.
  set (ts := test :: tests).
  destruct (build_tests_run ts w) as [Hf Hr]. unfold bind.
  destruct (mapM (_build_test U) ts w) as [[records|e] w1];
    cbn [fst snd] in Hf, Hr; [|by rewrite Hr].
  destruct Hr as [-> Hlen].
  rewrite write_feature_run by (by destruct records).
  cbn [fst snd files]. by rewrite Hf.
Qed.

End EmitterFacts.

(** C3: the emitter does not write the lines of the tests.  For a suite
    with at least one direct test whose records are built, writing the tag
    line adds the letter "t" to a list, which is a [TypeError]: the file
    holds the header and nothing else, and [_write_tests] raises. *)
Theorem emitter_stops_at_tag_line (U : RobotUtils) (suite : SuiteNode)
    (w : World)
    (Htests : s_tests suite ≠ [])
    (Hbuilt : timeouts_status U (s_tests suite) = Ok ()) :
  let run := _write_tests U suite w in
  run.1 = Raise TypeError ∧
  files run.2 =
    <[feature_filename (s_name suite) := feature_header (s_name suite)]>
      (files w).
Proof.
  pose proof (write_tests_run U suite w) as H.
  destruct (s_tests suite); [done|]. by rewrite Hbuilt in H.
Qed.

Lemma emitter_stops_at_tag_line_witness :
  let run := _write_tests Sample.utils Login.suite Login.world in
  run.1 = Raise TypeError ∧
  files run.2 =
    <["Login_Suite.feature" := "Feature: Login Suite" +:+ NL +:+ NL +:+ NL]> ∅.
Proof.
  apply (emitter_stops_at_tag_line Sample.utils Login.suite Login.world);
    [discriminate | reflexivity].
Defined.

(** The conversion of a tree ends at the first suite with direct tests: the
    suites after it get no file. *)
Example conversion_stops_at_first_suite :
  let run := _build_suite Sample.utils None Login.tree Login.world in
  run.1 = Raise TypeError ∧
  files run.2 !! "Login_Suite.feature" = Some (feature_header "Login Suite") ∧
  files run.2 !! "Logout_Suite.feature" = None.
Proof. vm_compute. done. Qed.

(** ** Whole suites *)

Lemma suite_ind (P : SuiteNode → Prop) :
  (∀ suite, Forall P (s_suites suite) → P suite) → ∀ suite, P suite.
Proof.
  intros H. fix IH 1. intros suite. apply H.
  destruct suite as [? ? ? ? ? ? suites ? ? ?]. cbn [s_suites].
  induction suites as [|child suites IHs]; constructor; [apply IH | apply IHs].
Qed.

Section Frames.
Context (U : RobotUtils) (_output_path : option string).

Lemma framed_ret {A} (a : A) : framed (ret a).
Proof. intros w. unfold ret. cbn. by rewrite (left_id_L ∅ (∪)). Qed.

Lemma framed_lift {A} (r : Res A) : framed (lift r).
Proof. intros w. unfold lift. cbn. by rewrite (left_id_L ∅ (∪)). Qed.

Lemma framed_bind {A B} (m : M A) (k : A → M B) :
  framed m → (∀ a, framed (k a)) → framed (bind m k).
Proof.
  intros Hm Hk w. unfold bind. destruct (Hm w) as [Hr Hf].
  destruct (m w) as [[a|e] w1], (m empty_world) as [[a0|e0] w0];
    cbn [fst snd] in *; try discriminate; [|by injection Hr as ->].
  injection Hr as ->.
  destruct (Hk a0 w1) as [Hr1 Hf1], (Hk a0 w0) as [Hr0 Hf0].
  split; [congruence|]. by rewrite Hf1, Hf0, Hf, (assoc_L (∪)).
Qed.

Lemma framed_mapM {A B} (f : A → M B) (l : list A) :
  Forall (λ x, framed (f x)) l → framed (mapM f l).
Proof.
  induction 1 as [|x l Hx _ IH]; cbn [mapM]; [apply framed_ret|].
  apply framed_bind; [done|]. intros y.
  apply framed_bind; [done|]. intros ys. apply framed_ret.
Qed.

Lemma framed_write_tests (suite : SuiteNode) :
  framed (_write_tests U suite).
Proof.
  intros w.
  pose proof (write_tests_run U suite w) as Hw.
  pose proof (write_tests_run U suite empty_world) as H0.
  destruct (s_tests suite) as [|test tests]; cbn zeta in *.
  - rewrite Hw, H0. cbn. by rewrite (left_id_L ∅ (∪)).
  - destruct (timeouts_status U (test :: tests));
      destruct Hw as [-> ->], H0 as [-> ->]; (split; [done|]); cbn.
    + by rewrite <- insert_union_l, (left_id_L ∅ (∪)).
    + by rewrite (left_id_L ∅ (∪)).
Qed.

Lemma build_suite_unfold (suite : SuiteNode) :
  _build_suite U _output_path suite =
  (relativeSource <- lift (_get_relative_source U _output_path
                             (s_source suite)) ;;
   suites <- mapM (_build_suite U _output_path) (s_suites suite) ;;
   tests <- _write_tests U suite ;;
   ret {| sr_source := default "" (s_source suite);
          sr_relativeSource := relativeSource;
          sr_id := s_id suite;
          sr_name := s_name suite;
          sr_fullName := s_longname suite;
          sr_doc := s_doc suite;
          sr_numberOfTests := s_test_count suite;
          sr_suites := suites;
          sr_tests := tests;
          sr_keywords :=
            _build_keywords U
              [opt_node (s_setup suite); opt_node (s_teardown suite)] |}).
Proof. by destruct suite. Qed.

Lemma framed_build_suite (suite : SuiteNode) :
  framed (_build_suite U _output_path suite).
Proof.
  induction suite as [suite IH] using suite_ind.
  rewrite build_suite_unfold.
  apply framed_bind; [apply framed_lift|]. intros rel.
  apply framed_bind; [by apply framed_mapM|]. intros suites.
  apply framed_bind; [apply framed_write_tests|]. intros tests.
  apply framed_ret.
Qed.

End Frames.

(** C1: converting a suite tree a second time, in the world the first
    conversion left (test bodies updated, files written), leaves the files
    as they were after the first; started again from the files of before
    the first conversion, the second writes the same files with the same
    contents; and both conversions end the same way. *)
Theorem conversion_idempotent (U : RobotUtils) (_output_path : option string)
    (suite : SuiteNode) (w : World) :
  let first := _build_suite U _output_path suite w in
  let second := _build_suite U _output_path suite first.2 in
  let again :=
    _build_suite U _output_path suite
      {| heap := heap first.2; files := files w |} in
  files second.2 = files first.2 ∧
  files again.2 = files first.2 ∧
  second.1 = first.1.
Proof.
  cbn zeta. pose proof (framed_build_suite U _output_path suite) as H.
  destruct (H w) as [Hr Hf]. split; [|split].
  - destruct (H (_build_suite U _output_path suite w).2) as [_ ->].
    by rewrite Hf, (assoc_L (∪)), (idemp_L (∪)).
  - destruct (H {| heap := heap (_build_suite U _output_path suite w).2;
                   files := files w |}) as [_ ->]. by rewrite Hf.
  - destruct (H (_build_suite U _output_path suite w).2) as [-> _].
    by rewrite Hr.
Qed.

(** The records are not the same the second time: the setup is in the body
    once more. *)
Example second_record_repeats_setup :
  let first := _build_test Sample.utils Login.test Login.world in
  let second := _build_test Sample.utils Login.test first.2 in
  ∃ r1 r2,
    first.1 = Ok r1 ∧ second.1 = Ok r2 ∧
    lr_name <$> tr_keywords r1 = ["Prepare"; "Open Browser"; "$retry"; ""] ∧
    lr_name <$> tr_keywords r2 =
      ["Prepare"; "Prepare"; "Open Browser"; "$retry"; ""].
Proof. by eexists _, _. Qed.

(** ** Which files a conversion writes *)

Section Writes.
Context (U : RobotUtils) (_output_path : option string).









Lemma timeouts_status_ok (tests : list TestNode) :
  raises_only_ValueError (timestr_to_secs U) →
  raises_only_ValueError (secs_to_timestr U) →
  timeouts_status U tests = Ok ().
Proof.
  intros Hparse Hrender. induction tests as [|test tests IH]; [done|].
  cbn [timeouts_status]. rewrite IH.
  by destruct (get_timeout_returns U (t_timeout test) Hparse Hrender)
    as [tout ->].
Qed.

End Writes.

Lemma timeouts_status_raises (U : RobotUtils) (tests : list TestNode) :
  Exists (λ test, ∃ e, _get_timeout U (t_timeout test) = Raise e) tests →
  ∃ e, timeouts_status U tests = Raise e ∧ e ≠ ValueError.
Proof.
  induction tests as [|test tests IH]; intros Hex; [by inversion Hex|].
  cbn [timeouts_status].
  pose proof (get_timeout_catches_ValueError U (t_timeout test)) as Hcatch.
  destruct (_get_timeout U (t_timeout test)) as [tout|e] eqn:Ht.
  - apply IH. apply Exists_cons in Hex as [[e He]|Hex]; [|done].
    rewrite Ht in He. discriminate.
  - exists e. split; [done|]. by intros ->.
Qed.






(** ** The relative source *)

(** C7: the relative source is the empty string when the source of the
    suite or the output path is empty or absent; otherwise it is what
    [get_link_path] gives for the source and the directory of the output
    path.  The suite record carries this value and no other: a failure of
    [get_link_path] ends [_build_suite] with no record and no effect. *)
Theorem relative_source_exact (U : RobotUtils) (_output_path : option string)
    (suite : SuiteNode) (w : World) :
  let relative := _get_relative_source U _output_path (s_source suite) in
  (Py.truthy (s_source suite) = false ∨ Py.truthy _output_path = false →
     relative = Ok "") ∧
  (∀ source output,
     s_source suite = Some source → source ≠ "" →
     _output_path = Some output → output ≠ "" →
     relative = get_link_path U source (dirname U output)) ∧
  (∀ record w',
     _build_suite U _output_path suite w = (Ok record, w') →
     relative = Ok (sr_relativeSource record)) ∧
  (∀ e, relative = Raise e →
     _build_suite U _output_path suite w = (Raise e, w)).
Proof.
  cbn zeta. split; [|split; [|split]].
  - unfold _get_relative_source. intros [-> | ->]; [done|].
    by rewrite orb_true_r.
  - intros source output -> Hs -> Ho. unfold _get_relative_source.
    by destruct source, output.
  - intros record w'. rewrite build_suite_unfold. unfold bind, lift, ret.
    destruct (_get_relative_source U _output_path (s_source suite));
      [|done].
    destruct (mapM _ _ w) as [[suites|e] w1]; [|done].
    destruct (_write_tests _ _ w1) as [[tests|e] w2]; [|done].
    by intros [= <- _].
  - intros e He. rewrite build_suite_unfold. unfold bind, lift.
    by rewrite He.
Qed.

Lemma relative_source_exact_witness :
  _get_relative_source Sample.utils (Some "/work/out") (Some "/work/tests")
  = Ok "tests".
Proof.
  destruct (relative_source_exact Sample.utils (Some "/work/out")
              Login.directory empty_world) as (_ & _ & Hrecord & _).
  exact (Hrecord _ _ eq_refl).
Defined.

(** ** Fields that are not rendered *)

Lemma all_suites_self (suite : SuiteNode) : suite ∈ all_suites suite.
Proof. destruct suite. apply elem_of_cons. by left. Qed.

Lemma all_suites_child (suite child d : SuiteNode) :
  child ∈ s_suites suite → d ∈ all_suites child → d ∈ all_suites suite.
Proof.
  intros Hc Hd. destruct suite. cbn [all_suites s_suites] in *.
  apply elem_of_cons. right. apply list_elem_of_In, in_flat_map.
  exists child. split; by apply list_elem_of_In.
Qed.

Lemma mapM_map_alike {A B} (k : A → A) (g : A → M B) (l : list A) :
  Forall (λ x, ∀ w, g (k x) w = g x w) l →
  ∀ w, mapM g (map k l) w = mapM g l w.
Proof.
  induction 1 as [|x l Hx _ IH]; intros w; [done|].
  cbn [map mapM]. unfold bind. rewrite Hx.
  destruct (g x w) as [[y|e] w1]; [|done]. by rewrite IH.
Qed.

Section Alike.
Context (U : RobotUtils) (_output_path : option string).
Context (f : TestNode → TestNode).

Lemma build_tests_alike (tests : list TestNode) :
  Forall (λ test, builds_alike U (f test) test) tests →
  ∀ w,
    (mapM (_build_test U) (map f tests) w).2 =
    (mapM (_build_test U) tests w).2 ∧
    match (mapM (_build_test U) (map f tests) w).1,
          (mapM (_build_test U) tests w).1 with
    | Ok records', Ok records => length records' = length records
    | Raise e', Raise e => e' = e
    | _, _ => False
    end.
Proof.
  induction 1 as [|test tests Ht _ IH]; intros w; [done|].
  cbn [map mapM]. unfold bind. destruct (Ht w) as [Hw Hr].
  destruct (_build_test U (f test) w) as [[r'|e'] w1'],
    (_build_test U test w) as [[r|e] w1]; cbn [fst snd] in *; try done.
  subst w1'. destruct (IH w1) as [Hw2 Hr2].
  destruct (mapM (_build_test U) (map f tests) w1) as [[rs'|e'] w2'],
    (mapM (_build_test U) tests w1) as [[rs|e] w2];
    cbn [fst snd] in *; try done.
  unfold ret. cbn [fst snd length]. by rewrite Hr2.
Qed.

Lemma map_tests_fields (suite : SuiteNode) :
  s_source (map_tests f suite) = s_source suite ∧
  s_id (map_tests f suite) = s_id suite ∧
  s_name (map_tests f suite) = s_name suite ∧
  s_longname (map_tests f suite) = s_longname suite ∧
  s_doc (map_tests f suite) = s_doc suite ∧
  s_test_count (map_tests f suite) = s_test_count suite ∧
  s_suites (map_tests f suite) = map (map_tests f) (s_suites suite) ∧
  s_tests (map_tests f suite) = map f (s_tests suite) ∧
  s_setup (map_tests f suite) = s_setup suite ∧
  s_teardown (map_tests f suite) = s_teardown suite.
Proof. by destruct suite. Qed.

Lemma write_tests_alike (suite : SuiteNode) (w : World) :
  Forall (λ test, builds_alike U (f test) test) (s_tests suite) →
  _write_tests U (map_tests f suite) w = _write_tests U suite w.
Proof.
  intros Halike. unfold _write_tests.
  destruct (map_tests_fields suite)
    as (_ & _ & -> & _ & _ & _ & _ & -> & _ & _).
  destruct (s_tests suite) as [|test tests]; [done|].
  destruct (build_tests_alike (test :: tests) Halike w) as [Hw Hr].
  cbn [map] in *. unfold bind.
  destruct (mapM (_build_test U) (f test :: map f tests) w)
    as [[rs'|e'] w1'],
    (mapM (_build_test U) (test :: tests) w) as [[rs|e] w1] eqn:Hrun;
    cbn [fst snd] in *; try done; subst; [|done].
  pose proof (build_tests_run U (test :: tests) w) as [_ Hlen].
  rewrite Hrun in Hlen. cbn [fst length] in Hlen. destruct Hlen as [_ Hlen].
  rewrite !write_feature_run; [done|by destruct rs|].
  destruct rs'; [|done]. cbn [length] in Hr. by rewrite Hlen in Hr.
Qed.

Lemma build_suite_alike (suite : SuiteNode) :
  (∀ d test, d ∈ all_suites suite → test ∈ s_tests d →
     builds_alike U (f test) test) →
  ∀ w, _build_suite U _output_path (map_tests f suite) w =
       _build_suite U _output_path suite w.
Proof.
  induction suite as [suite IH] using suite_ind. intros Halike w.
  rewrite !build_suite_unfold.
  assert (∀ w, mapM (_build_suite U _output_path)
                 (map (map_tests f) (s_suites suite)) w =
               mapM (_build_suite U _output_path) (s_suites suite) w)
    as Hsub.
  { assert (Forall (λ c, ∀ w, _build_suite U _output_path (map_tests f c) w =
                              _build_suite U _output_path c w)
              (s_suites suite)) as Hchildren.
    { apply Forall_forall. intros c Hc. rewrite Forall_forall in IH.
      apply (IH c Hc). intros d test Hd. apply Halike.
      by apply (all_suites_child suite c). }
    by apply mapM_map_alike. }
  assert (∀ w, _write_tests U (map_tests f suite) w = _write_tests U suite w)
    as Hwrite.
  { intros w0. apply write_tests_alike, Forall_forall. intros test Ht.
    by apply (Halike suite test (all_suites_self suite)). }
  destruct (map_tests_fields suite)
    as (-> & -> & -> & -> & -> & -> & -> & _ & -> & ->).
  unfold bind. destruct (lift _ w) as [[rel|e] w1]; [|done].
  rewrite Hsub. destruct (mapM _ _ w1) as [[suites|e] w2]; [|done].
  by rewrite Hwrite.
Qed.

End Alike.

Lemma blank_described_alike (U : RobotUtils) (test : TestNode) :
  builds_alike U (blank_described test) test.
Proof.
  intros w. unfold _build_test, bind, lift, get_body, ret, body_insert0,
    body_append.
  cbn [blank_described t_setup t_teardown t_timeout t_body].
  by destruct (t_setup test), (t_teardown test),
    (_get_timeout U (t_timeout test)).
Qed.

Lemma erase_test_alike (U : RobotUtils) (test : TestNode) (tout : string) :
  _get_timeout U (t_timeout test) = Ok tout →
  builds_alike U (erase_test test) test.
Proof.
  intros Ht w. unfold _build_test, bind, lift, get_body, ret, body_insert0,
    body_append.
  cbn [erase_test t_setup t_teardown t_timeout t_body _get_timeout].
  rewrite Ht. by destruct (t_setup test), (t_teardown test).
Qed.

(** C10, as stated, fails: the two suites are the same except in the
    timeout of one test; with the timeout "inf", which cannot be formatted,
    no file is opened, and with "60s" the file is there. *)
Lemma timeout_decides_file :
  same_rendered Faulty.suite Faulty.timed_suite ∧
  files (_build_suite Faulty.utils None Faulty.suite Login.world).2
    !! "Login_Suite.feature" = None ∧
  files (_build_suite Faulty.utils None Faulty.timed_suite Login.world).2
    !! "Login_Suite.feature" = Some (feature_header "Login Suite").
Proof. split; [reflexivity|]. vm_compute. done. Qed.

(** C10, amended: the files a conversion leaves do not depend on the doc,
    id and long name of the tests, nor on their timeouts as long as every
    timeout of both trees is formatted without an exception: two suite
    trees that are the same except in doc, id and long name, or the same
    except in those and in timeouts that are all formatted, leave the same
    files with the same contents when converted in the same world. *)
Theorem files_ignore_unrendered (U : RobotUtils)
    (_output_path : option string) (suite1 suite2 : SuiteNode) (w : World) :
  (same_but_described suite1 suite2 →
     files (_build_suite U _output_path suite1 w).2 =
     files (_build_suite U _output_path suite2 w).2) ∧
  (same_rendered suite1 suite2 →
   timeouts_return U suite1 → timeouts_return U suite2 →
     files (_build_suite U _output_path suite1 w).2 =
     files (_build_suite U _output_path suite2 w).2).
Proof.
  split.
  - intros Hsame.
    rewrite <- (build_suite_alike U _output_path blank_described suite1),
      <- (build_suite_alike U _output_path blank_described suite2);
      [by rewrite Hsame|intros; apply blank_described_alike..].
  - intros Hsame Hret1 Hret2.
    rewrite <- (build_suite_alike U _output_path erase_test suite1),
      <- (build_suite_alike U _output_path erase_test suite2);
      [by rewrite Hsame| |].
    + intros d test Hd Ht. destruct (Hret2 d test Hd Ht) as [tout Htout].
      by apply (erase_test_alike U test tout).
    + intros d test Hd Ht. destruct (Hret1 d test Hd Ht) as [tout Htout].
      by apply (erase_test_alike U test tout).
Qed.

Lemma files_ignore_unrendered_witness :
  files (_build_suite Sample.utils None Login.suite Login.world).2 =
  files (_build_suite Sample.utils None Login.suite_redocumented
           Login.world).2.
Proof.
  apply (files_ignore_unrendered Sample.utils None Login.suite
           Login.suite_redocumented Login.world).
  - reflexivity.
  - intros d test Hd Ht. apply (get_timeout_returns Sample.utils);
      apply sample_timeouts_ok.
  - intros d test Hd Ht. apply (get_timeout_returns Sample.utils);
      apply sample_timeouts_ok.
Defined.

(** * Further properties *)

(** ** The normalizer keeps the order of a body *)

(** X1: normalizing two sequences one after the other gives the records of
    the first followed by the records of the second: the records of a
    control block stay between those of its neighbours. *)
Theorem build_keywords_app (U : RobotUtils)
    (before after : list (option KeywordNode)) :
  _build_keywords U (before ++ after) =
  _build_keywords U before ++ _build_keywords U after.
Proof.
  induction before as [|[kw|] before IH]; cbn [app _build_keywords];
    [done| |done].
  by rewrite IH, (assoc_L (++)).
Qed.

(** X2: the elements for which [not kw] holds leave no trace: a sequence
    and the sequence of its truthy nodes have the same records. *)
Theorem build_keywords_skips_null (U : RobotUtils)
    (keywords : list (option KeywordNode)) :
  _build_keywords U keywords = _build_keywords U (Some <$> omap id keywords).
Proof.
  induction keywords as [|[kw|] keywords IH]; [done| |done].
  cbn [_build_keywords omap list_omap fmap list_fmap id].
  by rewrite IH.
Qed.

(** ** Keyword records *)

Lemma rstrip_by_app_stripped (p : ascii → bool) (s t : string) :
  Py.rstrip_by p t = "" → Py.rstrip_by p (s +:+ t) = Py.rstrip_by p s.
Proof.
  intros Ht. induction s as [|c s IH]; [done|].
  change (String c s +:+ t) with (String c (s +:+ t)).
  cbn [Py.rstrip_by]. by rewrite IH.
Qed.

Lemma assigned_name_long (kw : Keyword) :
  kw_assign kw ≠ [] → 3 ≤ String.length (_get_kw_name kw).
Proof.
  intros Hassign. unfold _get_kw_name.
  destruct (kw_assign kw) as [|a assign]; [done|].
  rewrite !string_length_app. simpl. lia.
Qed.

(** X3: a keyword is rendered as a data row exactly when it has no
    assigned variable and is named ["^"] or [">"]: then the record has an
    empty name and the piped row as arguments.  Any other keyword, also a
    row marker with an assigned variable, keeps its display name and has
    its arguments joined with [", "].  The type is the one passed in. *)
Theorem data_row_iff (kw : Keyword) (kw_type : string) :
  let record := _build_keyword kw kw_type in
  lr_type record = kw_type ∧
  (is_data_row kw →
     lr_name record = "" ∧
     lr_arguments record = _build_data_row (kw_args kw)) ∧
  (¬ is_data_row kw →
     lr_name record = _get_kw_name kw ∧
     lr_arguments record = Py.join ", " (kw_args kw)).
Proof.
  cbn zeta. unfold _build_keyword, is_data_row.
  destruct (String.eqb_spec (_get_kw_name kw) "^") as [Hup|Hup];
    [|destruct (String.eqb_spec (_get_kw_name kw) ">") as [Hgt|Hgt]];
    cbn [orb lr_type lr_name lr_arguments].
  - split; [done|]. split; [done|]. intros Hnot. exfalso. apply Hnot.
    destruct (kw_assign kw) as [|a assign] eqn:Hassign.
    + unfold _get_kw_name in Hup. rewrite Hassign in Hup. auto.
    + pose proof (assigned_name_long kw) as Hlen.
      rewrite Hup, Hassign in Hlen. simpl in Hlen.
      specialize (Hlen ltac:(done)). lia.
  - split; [done|]. split; [done|]. intros Hnot. exfalso. apply Hnot.
    destruct (kw_assign kw) as [|a assign] eqn:Hassign.
    + unfold _get_kw_name in Hgt. rewrite Hassign in Hgt. auto.
    + pose proof (assigned_name_long kw) as Hlen.
      rewrite Hgt, Hassign in Hlen. simpl in Hlen.
      specialize (Hlen ltac:(done)). lia.
  - split; [done|]. split; [|done]. intros [Hassign Hname]. exfalso.
    unfold _get_kw_name in Hup, Hgt. rewrite Hassign in Hup, Hgt.
    by destruct Hname.
Qed.

Lemma data_row_iff_witness :
  lr_name (_build_keyword (mkKeyword KEYWORD "^" ["a"; "b"; "c"] []) "KEYWORD")
  = "" ∧
  lr_arguments
    (_build_keyword (mkKeyword KEYWORD "^" ["a"; "b"; "c"] []) "KEYWORD")
  = TAB +:+ "| a | b | c |".
Proof.
  apply (data_row_iff (mkKeyword KEYWORD "^" ["a"; "b"; "c"] []) "KEYWORD").
  split; [reflexivity | left; reflexivity].
Defined.

(** X4: characters ["="] and [" "] after an assigned variable do not show
    in the display name of a keyword: adding to every assigned variable a
    suffix made of such characters leaves the display name as it was. *)
Theorem kw_name_ignores_assign_suffix (kw : Keyword) (suffix : string)
    (Hsuffix : Py.rstrip "= " suffix = "") :
  _get_kw_name (with_assign_suffix suffix kw) = _get_kw_name kw.
Proof.
  unfold _get_kw_name, with_assign_suffix. cbn [kw_assign kw_name].
  destruct (kw_assign kw) as [|a assign]; [done|].
  cbn [fmap list_fmap]. do 2 f_equal.
  change ((a +:+ suffix) :: ((λ a, a +:+ suffix) <$> assign))
    with ((λ a, a +:+ suffix) <$> (a :: assign)).
  generalize (a :: assign). intros l.
  induction l as [|b l IH]; [done|]. cbn [fmap list_fmap map].
  rewrite IH. f_equal. by apply rstrip_by_app_stripped.
Qed.

Lemma kw_name_ignores_assign_suffix_witness :
  _get_kw_name (mkKeyword KEYWORD "Get Value" [] ["x ="]) =
  _get_kw_name (mkKeyword KEYWORD "Get Value" [] ["x"]).
Proof.
  exact (kw_name_ignores_assign_suffix
           (mkKeyword KEYWORD "Get Value" [] ["x"]) " =" eq_refl).
Defined.

(** ** Names *)

Lemma rstrip_by_idem (p : ascii → bool) (s : string) :
  Py.rstrip_by p (Py.rstrip_by p s) = Py.rstrip_by p s.
Proof.
  induction s as [|c s IH]; [done|]. cbn [Py.rstrip_by].
  destruct (Py.rstrip_by p s) as [|d r] eqn:Hr.
  - destruct (p c) eqn:Hc; [done|]. cbn [Py.rstrip_by]. by rewrite Hc.
  - cbn [Py.rstrip_by]. cbn [Py.rstrip_by] in IH.
    destruct (Py.rstrip_by p r) as [|e r'] eqn:Hr'.
    + destruct (p d); [discriminate|]. by injection IH as ->.
    + by rewrite IH.
Qed.

Lemma lstrip_by_head (p : ascii → bool) (s : string) :
  match Py.lstrip_by p s with
  | EmptyString => True
  | String c _ => p c = false
  end.
Proof.
  induction s as [|c s IH]; [done|]. cbn [Py.lstrip_by].
  by destruct (p c) eqn:Hc.
Qed.

Lemma lstrip_by_rstrip_by (p : ascii → bool) (s : string) :
  Py.lstrip_by p (Py.rstrip_by p (Py.lstrip_by p s)) =
  Py.rstrip_by p (Py.lstrip_by p s).
Proof.
  pose proof (lstrip_by_head p s) as Hhead.
  destruct (Py.lstrip_by p s) as [|c x]; [done|]. cbn [Py.rstrip_by].
  destruct (Py.rstrip_by p x); rewrite ?Hhead; cbn [Py.lstrip_by];
    by rewrite Hhead.
Qed.

Lemma strip_idem (s : string) : Py.strip (Py.strip s) = Py.strip s.
Proof.
  unfold Py.strip. by rewrite lstrip_by_rstrip_by, rstrip_by_idem.
Qed.

(** X5: the name of every record of a TRY block is free of surrounding
    whitespace: stripping it again changes nothing. *)
Theorem try_names_stripped (body : list TryBranch) :
  Forall (λ record, Py.strip (lr_name record) = lr_name record)
    (_build_try body).
Proof.
  induction body as [|branch body IH]; cbn [_build_try]; constructor;
    [|done].
  cbn [lr_name]. unfold try_branch_name.
  destruct (String.eqb (try_type branch) EXCEPT); [apply strip_idem | done].
Qed.

(** X6: the name of a test record always has "scenario" in it, letter case
    ignored, so that deriving the name again from a derived name adds no
    second prefix. *)
Theorem test_name_stable (name : string) :
  occurs_ci "scenario" (test_name name) ∧
  test_name (test_name name) = test_name name.
Proof.
  assert (Py.contains "scenario" (Py.lower (test_name name)) = true) as H.
  { unfold test_name.
    destruct (Py.contains "scenario" (Py.lower name)) eqn:Hc; [done|].
    cbn [negb]. by rewrite lower_app. }
  split; [by apply contains_lower_occurs_ci|].
  unfold test_name at 1. by rewrite H.
Qed.

(** ** File names and titles *)

Lemma contains_char (c : ascii) (s : string) :
  Py.contains (String c "") s = Py.mem c s.
Proof.
  induction s as [|d s IH]; [done|].
  cbn [Py.contains Py.startswith Py.mem]. rewrite IH.
  by destruct s; rewrite andb_true_r.
Qed.

Lemma mem_app (c : ascii) (a b : string) :
  Py.mem c (a +:+ b) = Py.mem c a || Py.mem c b.
Proof.
  induction a as [|d a IH]; [done|].
  change (String d a +:+ b) with (String d (a +:+ b)). cbn [Py.mem].
  by rewrite IH, orb_assoc.
Qed.

Lemma mem_replace (old new : ascii) (s : string) :
  old ≠ new → Py.mem old (Py.replace old new s) = false.
Proof.
  intros Hne. induction s as [|c s IH]; [done|].
  cbn [Py.replace Py.mem]. rewrite IH, orb_false_r.
  destruct (Ascii.eqb_spec c old) as [->|Hc]; by apply Ascii.eqb_neq.
Qed.

Lemma replace_length (old new : ascii) (s : string) :
  String.length (Py.replace old new s) = String.length s.
Proof. induction s as [|c s IH]; simpl; congruence. Qed.


(** X7: the name of a feature file has no space in it, is eight characters
    longer than the name of the suite and ends in [".feature"]. *)
Theorem feature_filename_no_space (name : string) :
  Py.contains " " (feature_filename name) = false ∧
  String.length (feature_filename name) = String.length name + 8 ∧
  ∃ stem, feature_filename name = stem +:+ ".feature".
Proof.
  unfold feature_filename. split; [|split].
  - by rewrite contains_char, mem_app, mem_replace.
  - by rewrite string_length_app, replace_length.
  - by eexists.
Qed.


(** X9: with no title, or an empty one, the writer takes the name of the
    suite as title; a given title is taken with every ["_"] turned into a
    space, so it has no ["_"] left and keeps its length. *)
Theorem writer_title (output : option string) (suite : SuiteNode)
    (title : option string) :
  let chosen := fw_title (FeatureWriter_init output suite title) in
  (title = None ∨ title = Some "" → chosen = s_name suite) ∧
  (∀ given, title = Some given → given ≠ "" →
     chosen = Py.replace "_" " " given ∧
     Py.contains "_" chosen = false ∧
     String.length chosen = String.length given).
Proof.
  cbn zeta. unfold FeatureWriter_init. cbn [fw_title]. split.
  - by intros [-> | ->].
  - intros given -> Hgiven. destruct given as [|c given]; [done|].
    cbn [Py.truthy default from_option id].
    by rewrite contains_char, mem_replace, replace_length.
Qed.

Lemma writer_title_witness :
  fw_title (FeatureWriter_init None Login.suite (Some "Login_and_out"))
  = "Login and out" ∧
  fw_title (FeatureWriter_init None Login.suite (Some "")) = "Login Suite".
Proof.
  destruct (writer_title None Login.suite (Some "Login_and_out"))
    as [_ Hgiven].
  destruct (writer_title None Login.suite (Some "")) as [Hnone _].
  split; [by apply (Hgiven "Login_and_out") | apply Hnone; by right].
Defined.

(** ** Running a test or a suite more than once, or in vain *)

Lemma mjoin_replicate_comm {A} (n : nat) (l : list A) :
  mjoin (replicate n l) ++ l = l ++ mjoin (replicate n l).
Proof.
  induction n as [|n IH]; cbn [replicate mjoin list_join].
  - by rewrite app_nil_r.
  - rewrite <- (assoc_L (++)). f_equal. exact IH.
Qed.

(** X10: every run of [_build_test] on a test puts its setup once more in
    front of the body list of the test and its teardown once more at the
    end: after [n] runs the list has [n] setups, the first body and [n]
    teardowns, and the record of the next run has them all. *)
Theorem rebuilt_body (U : RobotUtils) (test : TestNode) (n : nat)
    (w : World) :
  let setups := Some ∘ KwNode <$> option_list (t_setup test) in
  let teardowns := Some ∘ KwNode <$> option_list (t_teardown test) in
  body_at (rebuilt U test n w) (t_body test) =
    mjoin (replicate n setups) ++ body_at w (t_body test) ++
    mjoin (replicate n teardowns) ∧
  files (rebuilt U test n w) = files w.
Proof.
  cbn zeta. induction n as [|n [IHb IHf]].
  - unfold rebuilt. cbn [Nat.iter replicate mjoin list_join].
    by rewrite app_nil_r.
  - change (rebuilt U test (S n) w)
      with (_build_test U test (rebuilt U test n w)).2.
    rewrite build_test_body, build_test_files, IHb.
    split; [|done]. unfold extended_body.
    change (mjoin (replicate (S n) ?l)) with (l ++ mjoin (replicate n l)).
    rewrite <- !(assoc_L (++)). do 3 f_equal.
    apply mjoin_replicate_comm.
Qed.

Lemma mapM_returns {A B} (Q : A → Prop) (f : A → M B) (l : list A)
    (w w' : World) (ys : list B) :
  Forall (λ x, ∀ w y w', f x w = (Ok y, w') → w' = w ∧ Q x) l →
  mapM f l w = (Ok ys, w') → w' = w ∧ Forall Q l.
Proof.
  intros Hall. revert w w' ys.
  induction Hall as [|x l Hx _ IH]; intros w w' ys.
  - cbn [mapM]. unfold ret. by intros [= _ <-].
  - cbn [mapM]. unfold bind.
    destruct (f x w) as [[y|e] w1] eqn:Hfx; [|done].
    destruct (Hx _ _ _ Hfx) as [-> HQ].
    destruct (mapM f l w) as [[zs|e] w2] eqn:Hrest; [|done].
    destruct (IH _ _ _ Hrest) as [-> HQs]. unfold ret.
    intros [= _ <-]. split; [done | by constructor].
Qed.

Lemma build_suite_returns (U : RobotUtils) (_output_path : option string)
    (suite : SuiteNode) (w w' : World) (record : SuiteRecord) :
  _build_suite U _output_path suite w = (Ok record, w') →
  w' = w ∧ Forall (λ d, s_tests d = []) (all_suites suite).
Proof.
  revert w w' record. induction suite as [suite IH] using suite_ind.
  intros w w' record. rewrite build_suite_unfold. unfold bind at 1.
  unfold lift at 1. destruct (_get_relative_source _ _ _) as [rel|e]; [|done].
  unfold bind at 1.
  destruct (mapM _ (s_suites suite) w) as [[records|e] w1] eqn:Hsub; [|done].
  apply (mapM_returns (λ c, Forall (λ d, s_tests d = []) (all_suites c)))
    in Hsub as [-> Hbelow].
  2:{ eapply Forall_impl; [exact IH|]. intros c Hc w0 y w0'. apply Hc. }
  unfold bind at 1. pose proof (write_tests_run U suite w) as Hw.
  destruct (_write_tests U suite w) as [[[]|e] w2] eqn:Hrun; [|done].
  unfold ret. intros [= _ <-]. cbn zeta in Hw.
  destruct (s_tests suite) as [|test tests] eqn:Htests.
  - injection Hw as ->. split; [done|].
    destruct suite. cbn [all_suites s_suites s_tests] in *.
    constructor; [done|]. apply Forall_forall. intros d Hd.
    apply list_elem_of_In, in_flat_map in Hd as (c & Hc & Hd).
    apply list_elem_of_In in Hc, Hd.
    rewrite Forall_forall in Hbelow. specialize (Hbelow c Hc).
    rewrite Forall_forall in Hbelow. by apply Hbelow.
  - by destruct (timeouts_status U (test :: tests)); destruct Hw.
Qed.

(** X11: [convert_data] returns only for a suite tree in which no suite has
    a direct test; it has then written no file and updated no body list.
    What it returns has the title of the writer and the clock reading. *)
Theorem convert_data_returns (U : RobotUtils) (generated : Z)
    (self : FeatureWriter) (w w' : World) (data : ConvertedData)
    (Hrun : convert_data U generated self w = (Ok data, w')) :
  w' = w ∧
  Forall (λ d, s_tests d = []) (all_suites (fw_suite self)) ∧
  cd_title data = fw_title self ∧
  cd_generated data = generated.
Proof.
  unfold convert_data, bind in Hrun.
  destruct (_build_suite U (fw_output self) (fw_suite self) w)
    as [[record|e] w1] eqn:Hbuild; [|done].
  apply build_suite_returns in Hbuild as [-> Hnone].
  unfold ret in Hrun. by injection Hrun as <- <-.
Qed.

Lemma convert_data_returns_witness :
  ∃ data,
    convert_data Sample.utils 1700000000000
      (FeatureWriter_init (Some "/work/out") Login.directory None)
      Login.world = (Ok data, Login.world) ∧
    cd_title data = "Tests".
Proof.
  eexists. split; [reflexivity|].
  eapply (convert_data_returns Sample.utils 1700000000000
            (FeatureWriter_init (Some "/work/out") Login.directory None)
            Login.world Login.world).
  reflexivity.
Defined.

(** ** How a whole conversion ends *)

Lemma find_app {A} (f : A → bool) (l k : list A) :
  find f (l ++ k) =
  match find f l with
  | Some x => Some x
  | None => find f k
  end.
Proof.
  induction l as [|x l IH]; [done|]. cbn [app find]. by destruct (f x).
Qed.

Lemma visit_order_unfold (suite : SuiteNode) :
  visit_order suite = flat_map visit_order (s_suites suite) ++ [suite].
Proof. by destruct suite. Qed.

Lemma mapM_stops_at {B} (f : SuiteNode → M B) (suites : list SuiteNode) :
  Forall (λ c, ∀ w, stops_at (find has_tests (visit_order c)) (f c) w)
    suites →
  ∀ w, stops_at (find has_tests (flat_map visit_order suites))
         (mapM f suites) w.
Proof.
  induction 1 as [|c cs Hc _ IH]; intros w.
  - by exists [].
  - cbn [flat_map mapM]. rewrite find_app.
    specialize (Hc w). specialize (IH w).
    destruct (find has_tests (visit_order c)) as [d|]; cbn [stops_at] in *.
    + destruct (f c w) as [[y|e] w1] eqn:Hfc; cbn [fst snd] in Hc;
        destruct Hc as [[= ->] Hf].
      unfold bind. by rewrite Hfc.
    + destruct Hc as [y Hy].
      destruct (find has_tests (flat_map visit_order cs)) as [d|];
        cbn [stops_at] in *; unfold bind; rewrite Hy.
      * by destruct (mapM f cs w) as [[ys|e] w1]; cbn [fst snd] in *;
          destruct IH as [[= ->] Hf].
      * destruct IH as [ys ->]. by eexists.
Qed.

Lemma build_suite_stops_at (U : RobotUtils) (_output_path : option string)
    (suite : SuiteNode) :
  raises_only_ValueError (timestr_to_secs U) →
  raises_only_ValueError (secs_to_timestr U) →
  (∀ d, d ∈ all_suites suite →
        ∃ rel, _get_relative_source U _output_path (s_source d) = Ok rel) →
  ∀ w, stops_at (find has_tests (visit_order suite))
         (_build_suite U _output_path suite) w.
Proof.
  intros Hparse Hrender.
  induction suite as [suite IH] using suite_ind. intros Hrel w.
  assert (∀ w, stops_at
                 (find has_tests (flat_map visit_order (s_suites suite)))
                 (mapM (_build_suite U _output_path) (s_suites suite)) w)
    as Hbelow.
  { apply mapM_stops_at, Forall_forall. intros c Hc.
    rewrite Forall_forall in IH. apply (IH c Hc). intros d Hd.
    apply Hrel. by apply (all_suites_child suite c). }
  rewrite build_suite_unfold, visit_order_unfold, find_app.
  destruct (Hrel suite (all_suites_self suite)) as [rel Hsuite].
  specialize (Hbelow w).
  pose proof (write_tests_run U suite w) as Hw. cbn zeta in Hw.
  destruct (find has_tests (flat_map visit_order (s_suites suite)))
    as [d|]; cbn [stops_at] in Hbelow.
  { cbn [stops_at]. unfold bind, lift. rewrite Hsuite.
    by destruct (mapM _ _ w) as [[ys|e] w1]; cbn [fst snd] in *;
      destruct Hbelow as [[= ->] Hf]. }
  destruct Hbelow as [records Hrecords].
  cbn [find]. unfold has_tests.
  destruct (s_tests suite) as [|test tests]; cbn [stops_at];
    unfold bind, lift; rewrite Hsuite, Hrecords.
  - rewrite Hw. by eexists.
  - rewrite timeouts_status_ok in Hw by done.
    by destruct (_write_tests U suite w) as [[[]|e] w1]; cbn [fst snd] in *;
      destruct Hw as [[= ->] Hf].
Qed.

(** X12: how a conversion ends, when the duration functions fail by
    [ValueError] only and every relative source is found.  The suites are
    taken in the order of writing, the suites below a suite before the
    suite.  With no direct test in the tree the conversion returns and has
    changed nothing.  Otherwise it raises [TypeError], and the only file
    written is the feature file of the first suite with direct tests,
    holding the header. *)
Theorem conversion_outcome (U : RobotUtils) (_output_path : option string)
    (suite : SuiteNode) (w : World)
    (Hparse : raises_only_ValueError (timestr_to_secs U))
    (Hrender : raises_only_ValueError (secs_to_timestr U))
    (Hrel : ∀ d, d ∈ all_suites suite →
       ∃ rel, _get_relative_source U _output_path (s_source d) = Ok rel) :
  let run := _build_suite U _output_path suite w in
  match find has_tests (visit_order suite) with
  | None => ∃ record, run = (Ok record, w)
  | Some d =>
      run.1 = Raise TypeError ∧
      files run.2 =
        <[feature_filename (s_name d) := feature_header (s_name d)]> (files w)
  end.
Proof.
  exact (build_suite_stops_at U _output_path suite Hparse Hrender Hrel w).
Qed.

Lemma conversion_outcome_witness :
  let run := _build_suite Sample.utils None Login.tree Login.world in
  run.1 = Raise TypeError ∧
  files run.2 = <["Login_Suite.feature" := feature_header "Login Suite"]> ∅.
Proof.
  refine (conversion_outcome Sample.utils None Login.tree Login.world
            (proj1 sample_timeouts_ok) (proj2 sample_timeouts_ok) _).
  intros d _. exists "". unfold _get_relative_source.
  by rewrite orb_true_r.
Defined.

(** ** The suite record *)

Lemma mapM_results {A B} (f : A → M B) (l : list A) (w w' : World)
    (ys : list B) :
  mapM f l w = (Ok ys, w') →
  Forall2 (λ x y, ∃ w1 w2, f x w1 = (Ok y, w2)) l ys.
Proof.
  revert w w' ys. induction l as [|x l IH]; intros w w' ys; cbn [mapM].
  - unfold ret. intros [= <- _]. constructor.
  - unfold bind. destruct (f x w) as [[y|e] w1] eqn:Hfx; [|done].
    destruct (mapM f l w1) as [[zs|e] w2] eqn:Hrest; [|done].
    unfold ret. intros [= <- _]. constructor.
    + by exists w, w1.
    + by apply (IH w1 w2).
Qed.

Lemma build_suite_record (U : RobotUtils) (_output_path : option string)
    (suite : SuiteNode) (w w' : World) (record : SuiteRecord) :
  _build_suite U _output_path suite w = (Ok record, w') →
  ∃ rel suites w1,
    mapM (_build_suite U _output_path) (s_suites suite) w = (Ok suites, w1) ∧
    record =
      {| sr_source := default "" (s_source suite);
         sr_relativeSource := rel;
         sr_id := s_id suite;
         sr_name := s_name suite;
         sr_fullName := s_longname suite;
         sr_doc := s_doc suite;
         sr_numberOfTests := s_test_count suite;
         sr_suites := suites;
         sr_tests := ();
         sr_keywords :=
           _build_keywords U
             [opt_node (s_setup suite); opt_node (s_teardown suite)] |}.
Proof.
  rewrite build_suite_unfold. unfold bind, lift, ret.
  destruct (_get_relative_source U _output_path (s_source suite))
    as [rel|e]; [|done].
  destruct (mapM _ _ w) as [[suites|e] w1]; [|done].
  destruct (_write_tests U suite w1) as [[[]|e] w2]; [|done].
  intros [= <- _]. by eexists _, _, _.
Qed.

(** X13: a suite record that is produced copies the id, name, long name,
    doc and test count of its suite (the count is not recomputed), has the
    empty string for an absent source, has one record per nested suite in
    the order of the suites, and has one keyword record for each of setup
    and teardown that is present. *)
Theorem suite_record_mirrors (U : RobotUtils) (_output_path : option string)
    (suite : SuiteNode) (w w' : World) (record : SuiteRecord)
    (Hrun : _build_suite U _output_path suite w = (Ok record, w')) :
  sr_source record = default "" (s_source suite) ∧
  sr_id record = s_id suite ∧
  sr_name record = s_name suite ∧
  sr_fullName record = s_longname suite ∧
  sr_doc record = s_doc suite ∧
  sr_numberOfTests record = s_test_count suite ∧
  Forall2 (λ child r, sr_id r = s_id child ∧ sr_name r = s_name child)
    (s_suites suite) (sr_suites record) ∧
  length (sr_keywords record) =
    present (s_setup suite) + present (s_teardown suite).
Proof.
  apply build_suite_record in Hrun as (rel & suites & w1 & Hsub & ->).
  cbn [sr_source sr_id sr_name sr_fullName sr_doc sr_numberOfTests sr_suites
       sr_keywords].
  repeat (split; [done|]). split.
  - apply mapM_results in Hsub. eapply Forall2_impl; [exact Hsub|].
    intros child r (w2 & w3 & Hchild). cbn beta in Hchild.
    by apply build_suite_record in Hchild as (? & ? & ? & _ & ->).
  - destruct (s_setup suite) as [setup|], (s_teardown suite) as [teardown|];
      cbn [opt_node fmap option_fmap option_map _build_keywords present];
      rewrite ?length_app, ?build_node_length; done.
Qed.

Lemma suite_record_mirrors_witness :
  ∃ record w',
    _build_suite Sample.utils (Some "/work/out")
      (Login.directory_of [Login.directory]) Login.world = (Ok record, w') ∧
    sr_numberOfTests record = 1 ∧
    Forall2 (λ child r, sr_id r = s_id child ∧ sr_name r = s_name child)
      [Login.directory] (sr_suites record).
Proof.
  destruct (_build_suite Sample.utils (Some "/work/out")
              (Login.directory_of [Login.directory]) Login.world)
    as [[record|e] w'] eqn:Hrun.
  - exists record, w'. split; [reflexivity|].
    destruct (suite_record_mirrors _ _ _ _ _ _ Hrun)
      as (_ & _ & _ & _ & _ & Hcount & Hsuites & _).
    split; [exact Hcount | exact Hsuites].
  - vm_compute in Hrun. discriminate.
Defined.

(** ** Failing before the file is opened *)

(** X14: when the timeout of a test of the suite cannot be formatted,
    [_write_tests] raises before any file is opened: the files are as they
    were, and what is raised is not a [ValueError]. *)
Theorem failed_record_opens_no_file (U : RobotUtils) (suite : SuiteNode)
    (w : World)
    (Hfail : Exists (λ test, ∃ e, _get_timeout U (t_timeout test) = Raise e)
               (s_tests suite)) :
  ∃ e, (_write_tests U suite w).1 = Raise e ∧ e ≠ ValueError ∧
       files (_write_tests U suite w).2 = files w.
Proof.
  apply timeouts_status_raises in Hfail as (e & Hstatus & He).
  pose proof (write_tests_run U suite w) as Hw. cbn zeta in Hw.
  destruct (s_tests suite) as [|test tests]; [done|].
  rewrite Hstatus in Hw. destruct Hw as [Hr Hf]. by exists e.
Qed.

Lemma failed_record_opens_no_file_witness :
  ∃ e, (_write_tests Faulty.utils Faulty.suite Login.world).1 = Raise e ∧
       e ≠ ValueError ∧
       files (_write_tests Faulty.utils Faulty.suite Login.world).2 = ∅.
Proof.
  apply (failed_record_opens_no_file Faulty.utils Faulty.suite Login.world).
  apply Exists_cons_tl, Exists_cons_hd. by eexists.
Defined.

(** ** IF blocks and timeouts *)

(** X15: an IF/ELSE root is normalized to one line record per branch, in
    order, with the type tag of the branch, its condition as name (the
    empty string for a branch with none) and empty arguments; the records
    take the place of the root among the records of its neighbours. *)
Theorem if_root_normalized (U : RobotUtils) (body : list IfBranch)
    (before after : list (option KeywordNode)) :
  ∃ records,
    Forall2 if_line_spec body records ∧
    _build_keywords U (before ++ Some (IfNode body) :: after) =
    _build_keywords U before ++ records ++ _build_keywords U after.
Proof.
  exists (_build_if body). split.
  - induction body as [|b body IH]; cbn [_build_if]; constructor; [|done].
    unfold if_line_spec. cbn [lr_type lr_name lr_arguments].
    repeat split; [by intros -> | by intros c ->].
  - induction before as [|[kw|] before IH]; cbn [app _build_keywords];
      [done| |done].
    by rewrite IH, (assoc_L (++)).
Qed.

(** X16: what the timeout formatter does with a failure of the duration
    functions.  A [ValueError] of either of them, of the rendering too,
    gives back the timeout as it was; any other error of either of them
    leaves the formatter as it is; so no [ValueError] ever leaves it. *)
Theorem get_timeout_failures (U : RobotUtils) (timeout : string) :
  (timestr_to_secs U timeout = Raise ValueError →
   _get_timeout U (Some timeout) = Ok timeout) ∧
  (∀ s, timestr_to_secs U timeout = Ok s →
        secs_to_timestr U s = Raise ValueError →
        _get_timeout U (Some timeout) = Ok timeout) ∧
  (∀ e, timestr_to_secs U timeout = Raise e → e ≠ ValueError →
        _get_timeout U (Some timeout) = Raise e) ∧
  (∀ s e, timestr_to_secs U timeout = Ok s →
          secs_to_timestr U s = Raise e → e ≠ ValueError →
          _get_timeout U (Some timeout) = Raise e) ∧
  _get_timeout U (Some timeout) ≠ Raise ValueError.
Proof.
  unfold _get_timeout. repeat split.
  - by intros ->.
  - intros s -> Hs. by rewrite Hs.
  - intros e -> He. by destruct e.
  - intros s e -> -> He. by destruct e.
  - apply (get_timeout_catches_ValueError U (Some timeout)).
Qed.

Lemma get_timeout_failures_witness :
  _get_timeout Faulty.utils (Some "inf") = Raise (OtherError "OverflowError").
Proof.
  destruct (get_timeout_failures Faulty.utils "inf")
    as (_ & _ & _ & Hrender & _).
  by apply (Hrender None).
Defined.
